(** * AI Resume Scorer API: a shallow embedding of [main.py]

    The service receives a resume (text, PDF or JSON upload), asks a
    generative model to score it and validates the model's answer
    against [ResumeScoreResponse], retrying up to three times.

    Python values are modelled as follows.
    - [str] is a list of Unicode code points ([N]).
    - A value produced by [json.loads] is a tree of type [json]; a
      [dict] is an association list in insertion order.
    - [float] is an IEEE 754 binary64 value ([spec_float]).
    - Code that raises returns [Raise e]; code that calls the model
      threads the number of model calls made so far.
    The libraries the program calls ([json], [pydantic]'s lax
    coercions, [PyPDF2], the model client) are the fields of one
    record, [Runtime]. *)

From Stdlib Require Import List ZArith NArith Bool Ascii String Lia.
From Stdlib Require Import Floats.SpecFloat DecimalString.
Import ListNotations.

Set Implicit Arguments.
Local Open Scope Z_scope.

(** ** Strings *)

Definition char := N.
Definition str := list char.

(** The code points of a string literal of the source. *)
Definition lit (s : string) : str :=
  map N_of_ascii (list_ascii_of_string s).

Fixpoint str_eqb (a b : str) : bool :=
  match a, b with
  | [], [] => true
  | x :: a', y :: b' => N.eqb x y && str_eqb a' b'
  | _, _ => false
  end.

(** [s.startswith(p)] *)
Fixpoint startswith (s p : str) : bool :=
  match p, s with
  | [], _ => true
  | _ :: _, [] => false
  | y :: p', x :: s' => N.eqb x y && startswith s' p'
  end.

(** [c in chars] *)
Definition char_in (chars : str) (c : char) : bool :=
  existsb (N.eqb c) chars.

(** [str.isspace] on one code point: the characters [str.strip()]
    removes. *)
Definition isspace (c : char) : bool :=
  ((9 <=? c) && (c <=? 13) || (28 <=? c) && (c <=? 32)
   || (c =? 133) || (c =? 160) || (c =? 5760)
   || (8192 <=? c) && (c <=? 8202)
   || (c =? 8232) || (c =? 8233) || (c =? 8239) || (c =? 8287)
   || (c =? 12288))%N.

Fixpoint lstrip_by (p : char -> bool) (s : str) : str :=
  match s with
  | [] => []
  | c :: s' => if p c then lstrip_by p s' else s
  end.

Definition rstrip_by (p : char -> bool) (s : str) : str :=
  rev (lstrip_by p (rev s)).

Definition strip_by (p : char -> bool) (s : str) : str :=
  rstrip_by p (lstrip_by p s).

(** [s.strip()] *)
Definition strip (s : str) : str := strip_by isspace s.

(** [s.strip(chars)] *)
Definition strip_chars (chars s : str) : str := strip_by (char_in chars) s.

(** [s.replace(old, new)] for a non-empty [old]: the occurrences of
    [old] are replaced from left to right, without overlap.  [skip] is
    the number of characters of a matched occurrence still to drop. *)
Fixpoint replace_from (old new : str) (skip : nat) (s : str) : str :=
  match s with
  | [] => []
  | c :: s' =>
      match skip with
      | S k => replace_from old new k s'
      | O =>
          if startswith s old
          then new ++ replace_from old new (Nat.pred (List.length old)) s'
          else c :: replace_from old new O s'
      end
  end.

(** [s.replace(old, new)]; with an empty [old], Python puts [new]
    before every character and at the end. *)
Definition replace (old new s : str) : str :=
  match old with
  | [] => flat_map (fun c => new ++ [c]) s ++ new
  | _ :: _ => replace_from old new O s
  end.

(** ** [clean_json] *)

Definition clean_json (raw_text : str) : str :=
  if startswith raw_text (lit "```")
  then
    let raw_text := strip_chars (lit "`") raw_text in
    strip (replace (lit "json") [] raw_text)
  else raw_text.

Definition nl : str := [10%N].

Example clean_json_fenced :
  clean_json (lit "```json" ++ nl ++ lit "{}" ++ nl ++ lit "```") = lit "{}".
Proof. reflexivity. Qed.

(** ** Python values *)

(** A Python [float]. *)
Definition float := spec_float.

(** [float(z)] for an [int]: rounded to the nearest double, ties to
    even; [None] when [z] is too large for a double (Python raises
    [OverflowError]). *)
Definition float_of_int (z : Z) : option float :=
  match binary_normalize 53 1024 z 0 false with
  | S754_infinity _ => None
  | f => Some f
  end.

#[local] Set Warnings "-register-all".

(** What [json.loads] builds: [None], [bool], [int], [float], [str],
    [list] and [dict] (keys in insertion order). *)
Inductive json : Type :=
| JNull
| JBool (b : bool)
| JInt (z : Z)
| JFloat (f : float)
| JString (s : str)
| JArray (items : list json)
| JObject (members : list (str * json)).

(** [bool(v)], as [if v:] and [v or w] test it. *)
Definition truthy (v : json) : bool :=
  match v with
  | JNull => false
  | JBool b => b
  | JInt z => negb (z =? 0)
  | JFloat (S754_zero _) => false
  | JFloat _ => true
  | JString [] => false
  | JString (_ :: _) => true
  | JArray [] => false
  | JArray (_ :: _) => true
  | JObject [] => false
  | JObject (_ :: _) => true
  end.

(** The value stored under key [k], if any. *)
Fixpoint dict_lookup (members : list (str * json)) (k : str) : option json :=
  match members with
  | [] => None
  | (k', v) :: rest => if str_eqb k' k then Some v else dict_lookup rest k
  end.

(** [d.get(k)]: the value, or [None]. *)
Definition dict_get (members : list (str * json)) (k : str) : json :=
  match dict_lookup members k with
  | Some v => v
  | None => JNull
  end.

(** ** Exceptions and effects *)

Inductive exn_class :=
| JSONDecodeError | ValidationError | TypeError | AttributeError
| ValueError | RecursionError | OtherError.

(** What [json.loads] raises besides [JSONDecodeError]: a plain
    [ValueError] on an integer of too many digits, a [RecursionError]
    on a nesting that is too deep. *)
Inductive loads_exn := TooManyDigits | TooDeep.

Definition class_of (e : loads_exn) : exn_class :=
  match e with
  | TooManyDigits => ValueError
  | TooDeep => RecursionError
  end.

(** The outcome of [json.loads]: the value, a [JSONDecodeError], or
    another exception. *)
Inductive loaded : Type :=
| Parsed (data : json)
| DecodeError (msg : str)
| LoadsRaises (e : loads_exn) (msg : str).

(** An exception of a library: its class and its message [str(e)]. *)
Definition failure : Type := exn_class * str.

Inductive exn :=
| HTTPException (status_code : Z) (detail : str)
| PyError (cls : exn_class) (msg : str).

Inductive res (A : Type) : Type :=
| Ret (a : A)
| Raise (e : exn).
Arguments Ret {A} a.
Arguments Raise {A} e.

(** A computation that may call the model: it receives the number of
    model calls made so far and returns the new number. *)
Definition M (A : Type) : Type := nat -> res A * nat.

Definition ret {A} (a : A) : M A := fun n => (Ret a, n).
Definition raise {A} (e : exn) : M A := fun n => (Raise e, n).
Definition bind {A B} (m : M A) (f : A -> M B) : M B :=
  fun n =>
    match m n with
    | (Ret a, n') => f a n'
    | (Raise e, n') => (Raise e, n')
    end.
Definition lift {A} (r : res A) : M A := fun n => (r, n).

Notation "x <- m ;; k" := (bind m (fun x => k))
  (at level 61, m at next level, right associativity).

(** The status code the framework answers with: the handler's
    [HTTPException] as raised, any other exception as a 500. *)
Definition status_of {A} (r : res A) : Z :=
  match r with
  | Ret _ => 200
  | Raise (HTTPException code _) => code
  | Raise (PyError _ _) => 500
  end.

(** ** The libraries *)

(** A page of a PDF: [page.extract_text()] returns a [str] or [None],
    or raises. *)
Definition page : Type := failure + option str.

Record Runtime : Type := {
  (** [json.loads(s)] *)
  json_loads : str -> loaded;
  (** [json.load(f)] on the bytes of an upload; [None] when it raises. *)
  json_load : list Byte.byte -> option json;
  (** [json.dumps(v)] *)
  json_dumps : json -> str;
  (** [str(v)], as an f-string formats a value that is not a [str]. *)
  py_str : json -> str;
  (** pydantic's coercion to [str] of a value that is not a [str]. *)
  lax_str : json -> option str;
  (** pydantic's coercion to [float] of a value that is not a number. *)
  lax_float : json -> option float;
  (** [model.generate_content(prompt).text] at the n-th model call. *)
  generate_content : str -> nat -> failure + str;
  (** [PyPDF2.PdfReader(f).pages] *)
  PdfReader : list Byte.byte -> failure + list page
}.

(** ** Models *)

Record ResumeScoreResponse : Type := {
  summary : str;
  skills_score : float;
  experience_score : float;
  overall_score : float;
  feedback : str;
  missing_aspects : list str
}.

Section Service.

Variable rt : Runtime.

(** Field of type [str]. *)
Definition validate_str (v : json) : option str :=
  match v with
  | JString s => Some s
  | _ => lax_str rt v
  end.

(** Field of type [float]: a [float] as it is, an [int] converted. *)
Definition validate_float (v : json) : option float :=
  match v with
  | JFloat f => Some f
  | JInt z => float_of_int z
  | _ => lax_float rt v
  end.

Fixpoint validate_items (items : list json) : option (list str) :=
  match items with
  | [] => Some []
  | v :: rest =>
      match validate_str v, validate_items rest with
      | Some s, Some l => Some (s :: l)
      | _, _ => None
      end
  end.

(** Field of type [list[str]]. *)
Definition validate_list_str (v : json) : option (list str) :=
  match v with
  | JArray items => validate_items items
  | _ => None
  end.

(** A required field: the key must be present and its value valid. *)
Definition field {A} (members : list (str * json)) (name : string)
    (validate : json -> option A) : option A :=
  match dict_lookup members (lit name) with
  | Some v => validate v
  | None => None
  end.

(** The six fields of [ResumeScoreResponse]; keys that are not fields
    are ignored. *)
Definition validate_model (members : list (str * json))
    : option ResumeScoreResponse :=
  match field members "summary" validate_str,
        field members "skills_score" validate_float,
        field members "experience_score" validate_float,
        field members "overall_score" validate_float,
        field members "feedback" validate_str,
        field members "missing_aspects" validate_list_str with
  | Some s, Some sk, Some ex, Some ov, Some fb, Some ma =>
      Some {| summary := s; skills_score := sk; experience_score := ex;
              overall_score := ov; feedback := fb; missing_aspects := ma |}
  | _, _, _, _, _, _ => None
  end.

(** [ResumeScoreResponse( **data )]: [**] needs a mapping, and raises
    [TypeError] on any other value. *)
Definition new_ResumeScoreResponse (data : json) : res ResumeScoreResponse :=
  match data with
  | JObject members =>
      match validate_model members with
      | Some r => Ret r
      | None => Raise (PyError ValidationError (lit "validation error"))
      end
  | _ => Raise (PyError TypeError (lit "argument after ** must be a mapping"))
  end.

(** ** Utils *)

Definition call_gemini (prompt : str) : M str :=
  fun n =>
    match generate_content rt prompt n with
    | inr text => (Ret (strip text), S n)
    | inl (cls, msg) => (Raise (PyError cls msg), S n)
    end.

(** The body of the [try] of [validate_and_parse_json]. *)
Definition parse_and_validate (raw_text : str) : res json :=
  match json_loads rt raw_text with
  | Parsed data =>
      match new_ResumeScoreResponse data with
      | Ret _ => Ret data
      | Raise e => Raise e
      end
  | DecodeError msg => Raise (PyError JSONDecodeError msg)
  | LoadsRaises e msg => Raise (PyError (class_of e) msg)
  end.

(** [except (json.JSONDecodeError, ValidationError)] *)
Definition caught (e : exn) : bool :=
  match e with
  | PyError JSONDecodeError _ => true
  | PyError ValidationError _ => true
  | _ => false
  end.

(** Returns [Some data], or [None] for the Python [None]; an exception
    the [except] clause does not name goes through. *)
Definition validate_and_parse_json (raw_text : str) : res (option json) :=
  match parse_and_validate raw_text with
  | Ret data => Ret (Some data)
  | Raise e => if caught e then Ret None else Raise e
  end.

(** [page.extract_text() or ''] *)
Definition text_or_empty (t : option str) : str :=
  match t with
  | Some (c :: s) => c :: s
  | _ => []
  end.

(** The loop over [reader.pages], from the text read so far. *)
Fixpoint read_pages (pages : list page) (text : str) : failure + str :=
  match pages with
  | [] => inr text
  | inl err :: _ => inl err
  | inr t :: rest => read_pages rest (text ++ text_or_empty t)
  end.

Record UploadFile : Type := {
  content_type : option str;
  file : list Byte.byte
}.

Definition extract_text_from_pdf (f : UploadFile) : res str :=
  let reading :=
    match PdfReader rt (file f) with
    | inl err => inl err
    | inr pages =>
        match read_pages pages [] with
        | inl err => inl err
        | inr text => inr (strip text)
        end
    end in
  match reading with
  | inr text => Ret text
  | inl (_, msg) => Raise (HTTPException 400 (lit "Error reading PDF: " ++ msg))
  end.

(** ** Shared processing *)

Definition dq : str := [34%N].
Definition quoted (s : string) : str := dq ++ lit s ++ dq.

(** The f-string of [process_resume], around [{resume_text}]. *)
Definition prompt_head : str :=
  nl ++ lit "    You are an expert HR and career coach." ++
  nl ++ lit "    Analyze the following resume and:" ++
  nl ++ lit "    1. Summarize it in 1-2 sentences under the key "
     ++ quoted "summary" ++ lit "." ++
  nl ++ lit "    2. Give a score from 1-10 for Skills." ++
  nl ++ lit "    3. Give a score from 1-10 for Experience." ++
  nl ++ lit "    4. Give an overall score from 1-10." ++
  nl ++ lit "    5. Provide constructive feedback in 2-3 sentences." ++
  nl ++ lit "    6. List 2-4 key aspects missing from the resume in "
     ++ quoted "missing_aspects" ++ lit "." ++
  nl ++
  nl ++ lit "    Resume:" ++
  nl ++ lit "    ".

Definition prompt_tail : str :=
  nl ++
  nl ++ lit "    Return ONLY valid JSON in this format:" ++
  nl ++ lit "    {" ++
  nl ++ lit "      " ++ quoted "summary" ++ lit ": " ++ quoted "string" ++ lit "," ++
  nl ++ lit "      " ++ quoted "skills_score" ++ lit ": number," ++
  nl ++ lit "      " ++ quoted "experience_score" ++ lit ": number," ++
  nl ++ lit "      " ++ quoted "overall_score" ++ lit ": number," ++
  nl ++ lit "      " ++ quoted "feedback" ++ lit ": " ++ quoted "string" ++ lit "," ++
  nl ++ lit "      " ++ quoted "missing_aspects" ++ lit ": ["
     ++ quoted "string" ++ lit ", " ++ quoted "string" ++ lit ", "
     ++ quoted "string" ++ lit "]" ++
  nl ++ lit "    }" ++
  nl ++ lit "    No markdown. No code blocks. No extra text." ++
  nl ++ lit "    ".

(** [f"{v}"]: a [str] as it is, any other value through [str(v)]. *)
Definition format_value (v : json) : str :=
  match v with
  | JString s => s
  | _ => py_str rt v
  end.

Definition make_prompt (resume_text : json) : str :=
  prompt_head ++ format_value resume_text ++ prompt_tail.

Definition model_failed : exn :=
  HTTPException 500
    (lit "Model failed to return valid JSON after 3 attempts").

(** [for attempt in range(k): ...], then the [raise] after the loop. *)
Fixpoint retry_loop (k : nat) (prompt : str) : M ResumeScoreResponse :=
  match k with
  | O => raise model_failed
  | S k' =>
      raw <- call_gemini prompt ;;
      parsed <- lift (validate_and_parse_json (clean_json raw)) ;;
      match parsed with
      | Some data =>
          if truthy data
          then lift (new_ResumeScoreResponse data)
          else retry_loop k' prompt
      | None => retry_loop k' prompt
      end
  end.

Definition process_resume (resume_text : json) : M ResumeScoreResponse :=
  retry_loop 3 (make_prompt resume_text).

(** ** API *)

Record ResumeRequest : Type := { resume_text : str }.

Definition score_resume (request : ResumeRequest) : M ResumeScoreResponse :=
  process_resume (JString (resume_text request)).

(** [data.get(k)]: only a [dict] has the method. *)
Definition py_get (data : json) (k : str) : res json :=
  match data with
  | JObject members => Ret (dict_get members k)
  | _ => Raise (PyError AttributeError (lit "object has no attribute 'get'"))
  end.

(** [x or y] *)
Definition py_or (x y : json) : json := if truthy x then x else y.

(** The body of the [try] of the JSON branch. *)
Definition read_json_upload (f : UploadFile) : res json :=
  match json_load rt (file f) with
  | None => Raise (PyError JSONDecodeError (lit "invalid document"))
  | Some data =>
      match py_get data (lit "resume_text") with
      | Ret v => Ret (py_or v (JString (json_dumps rt data)))
      | Raise e => Raise e
      end
  end.

(** [try: ... except Exception: raise handler] *)
Definition except_Exception {A} (r : res A) (handler : exn) : res A :=
  match r with
  | Ret a => Ret a
  | Raise _ => Raise handler
  end.

Definition invalid_json : exn :=
  HTTPException 400 (lit "Invalid JSON file").

Definition unsupported : exn :=
  HTTPException 400 (lit "Only PDF or JSON files are supported").

Definition content_type_is (f : UploadFile) (t : string) : bool :=
  match content_type f with
  | Some c => str_eqb c (lit t)
  | None => false
  end.

Definition upload_resume (f : UploadFile) : M ResumeScoreResponse :=
  if content_type_is f "application/pdf" then
    text <- lift (extract_text_from_pdf f) ;;
    process_resume (JString text)
  else if content_type_is f "application/json" then
    v <- lift (except_Exception (read_json_upload f) invalid_json) ;;
    process_resume v
  else raise unsupported.

End Service.

(** ** A scripted runtime

    The model answers the n-th call with the n-th text of [answers];
    [json.loads] and [json.load] read their result from a table, and
    a PDF has the pages given. *)

Fixpoint table_lookup {A B} (eqb : A -> A -> bool) (t : list (A * B)) (a : A)
    : option B :=
  match t with
  | [] => None
  | (a', b) :: rest => if eqb a' a then Some b else table_lookup eqb rest a
  end.

Definition bytes_eqb (a b : list Byte.byte) : bool :=
  if list_eq_dec Byte.byte_eq_dec a b then true else false.

Definition scripted (answers : list str) (texts : list (str * json))
    (uploads : list (list Byte.byte * json)) (dumps : json -> str)
    (pages : list page) : Runtime :=
  {| json_loads := fun s =>
       match table_lookup str_eqb texts s with
       | Some data => Parsed data
       | None => DecodeError (lit "Expecting value")
       end;
     json_load := table_lookup bytes_eqb uploads;
     json_dumps := dumps;
     py_str := dumps;
     lax_str := fun _ => None;
     lax_float := fun _ => None;
     generate_content := fun _ n => inr (nth n answers []);
     PdfReader := fun _ => inr pages |}.

Unset Implicit Arguments.

(** * Properties *)

(** ** Strings *)

Lemma str_eqb_refl (s : str) : str_eqb s s = true.
Proof.
  induction s as [|c s IH]; simpl; [reflexivity|].
  now rewrite N.eqb_refl, IH.
Qed.

Lemma str_eqb_eq (a b : str) : str_eqb a b = true <-> a = b.
Proof.
  split.
  - revert b; induction a as [|x a IH]; intros [|y b]; simpl;
      try discriminate; [reflexivity|].
    intros H. apply andb_true_iff in H as [Hx Hab].
    apply N.eqb_eq in Hx. apply IH in Hab. now subst.
  - intros ->. apply str_eqb_refl.
Qed.

(** ** The retry loop *)

Section Loop.

Variable rt : Runtime.

(** One turn of the loop, when the model call returns [raw]. *)
Lemma retry_loop_step (k n : nat) (prompt raw : str) :
  generate_content rt prompt n = inr raw ->
  retry_loop rt (S k) prompt n =
  match validate_and_parse_json rt (clean_json (strip raw)) with
  | Ret (Some data) =>
      if truthy data then (new_ResumeScoreResponse rt data, S n)
      else retry_loop rt k prompt (S n)
  | Ret None => retry_loop rt k prompt (S n)
  | Raise e => (Raise e, S n)
  end.
Proof.
  intros Hgen. simpl. unfold bind at 1, call_gemini. rewrite Hgen.
  unfold bind, lift.
  destruct (validate_and_parse_json rt (clean_json (strip raw)))
    as [[data|]|e]; try reflexivity.
  destruct (truthy data); reflexivity.
Qed.

(** The cleaned text is rejected the way the [except] clause expects:
    [json.loads] raises [JSONDecodeError] on it, or returns an object
    that fails validation. *)
Definition rejected (text : str) : Prop :=
  (exists msg, json_loads rt text = DecodeError msg) \/
  exists members, json_loads rt text = Parsed (JObject members) /\
                  validate_model rt members = None.

(** The cleaned text is a JSON object that validates as [r]. *)
Definition accepted (text : str) (r : ResumeScoreResponse) : Prop :=
  exists members, json_loads rt text = Parsed (JObject members) /\
                  validate_model rt members = Some r.

(** [json.loads] returns a value for the cleaned text, but not an
    object. *)
Definition not_a_mapping (text : str) : Prop :=
  exists data, json_loads rt text = Parsed data /\
               forall members, data <> JObject members.

Lemma rejected_parse (text : str) :
  rejected text -> validate_and_parse_json rt text = Ret None.
Proof.
  unfold validate_and_parse_json, parse_and_validate.
  intros [(msg & H) | (members & H & Hv)]; rewrite H; [reflexivity|].
  simpl. now rewrite Hv.
Qed.

Lemma validate_model_nonempty (members : list (str * json)) r :
  validate_model rt members = Some r -> truthy (JObject members) = true.
Proof.
  destruct members; [|reflexivity].
  unfold validate_model, field. simpl. discriminate.
Qed.

Lemma accepted_parse (text : str) r :
  accepted text r ->
  exists data, validate_and_parse_json rt text = Ret (Some data) /\
               truthy data = true /\
               new_ResumeScoreResponse rt data = Ret r.
Proof.
  intros (members & H & Hv). exists (JObject members).
  unfold validate_and_parse_json, parse_and_validate. rewrite H. simpl.
  rewrite Hv. repeat split. eapply validate_model_nonempty; eassumption.
Qed.

Lemma not_a_mapping_parse (text : str) :
  not_a_mapping text ->
  exists msg, validate_and_parse_json rt text = Raise (PyError TypeError msg).
Proof.
  intros (data & H & Hd).
  unfold validate_and_parse_json, parse_and_validate. rewrite H.
  destruct data; try (eexists; reflexivity).
  now contradiction (Hd members).
Qed.

Lemma retry_loop_rejected (k n : nat) (prompt raw : str) :
  generate_content rt prompt n = inr raw ->
  rejected (clean_json (strip raw)) ->
  retry_loop rt (S k) prompt n = retry_loop rt k prompt (S n).
Proof.
  intros Hgen Hrej. rewrite (retry_loop_step k n prompt raw Hgen).
  now rewrite (rejected_parse _ Hrej).
Qed.

Lemma retry_loop_accepted (k n : nat) (prompt raw : str) r :
  generate_content rt prompt n = inr raw ->
  accepted (clean_json (strip raw)) r ->
  retry_loop rt (S k) prompt n = (Ret r, S n).
Proof.
  intros Hgen Hacc. rewrite (retry_loop_step k n prompt raw Hgen).
  destruct (accepted_parse _ _ Hacc) as (data & -> & -> & ->). reflexivity.
Qed.

Lemma retry_loop_not_a_mapping (k n : nat) (prompt raw : str) :
  generate_content rt prompt n = inr raw ->
  not_a_mapping (clean_json (strip raw)) ->
  exists msg,
    retry_loop rt (S k) prompt n = (Raise (PyError TypeError msg), S n).
Proof.
  intros Hgen Hnm. rewrite (retry_loop_step k n prompt raw Hgen).
  destruct (not_a_mapping_parse _ Hnm) as (msg & ->). now exists msg.
Qed.

(** When the [k] answers from call [n] on are all rejected, the loop
    makes [k] model calls and raises the 500. *)
Lemma retry_loop_exhausted (prompt : str) (k n : nat) :
  (forall i, (i < k)%nat ->
     exists raw, generate_content rt prompt (n + i) = inr raw /\
                 rejected (clean_json (strip raw))) ->
  retry_loop rt k prompt n = (Raise model_failed, (n + k)%nat).
Proof.
  revert n; induction k as [|k IH]; intros n Hall.
  - simpl. unfold raise. now rewrite Nat.add_0_r.
  - destruct (Hall 0%nat ltac:(lia)) as (raw & Hgen & Hrej).
    rewrite Nat.add_0_r in Hgen.
    rewrite (retry_loop_rejected k n prompt raw Hgen Hrej), IH.
    + f_equal. lia.
    + intros i Hi. destruct (Hall (S i) ltac:(lia)) as (raw' & Hg & Hr).
      exists raw'. split; [|exact Hr].
      now replace (S n + i)%nat with (n + S i)%nat by lia.
Qed.

(** When the answers before attempt [j] are rejected and the answer of
    attempt [j] is accepted, the loop returns it after [j + 1] calls. *)
Lemma retry_loop_first_accepted (prompt : str) (k j n : nat) r :
  (j < k)%nat ->
  (forall i, (i < j)%nat ->
     exists raw, generate_content rt prompt (n + i) = inr raw /\
                 rejected (clean_json (strip raw))) ->
  (exists raw, generate_content rt prompt (n + j) = inr raw /\
               accepted (clean_json (strip raw)) r) ->
  retry_loop rt k prompt n = (Ret r, (n + S j)%nat).
Proof.
  revert k n; induction j as [|j IH]; intros k n Hjk Hbefore (raw & Hgen & Hacc).
  - destruct k as [|k]; [lia|]. rewrite Nat.add_0_r in Hgen.
    rewrite (retry_loop_accepted k n prompt raw r Hgen Hacc). f_equal. lia.
  - destruct k as [|k]; [lia|].
    destruct (Hbefore 0%nat ltac:(lia)) as (raw0 & Hgen0 & Hrej0).
    rewrite Nat.add_0_r in Hgen0.
    rewrite (retry_loop_rejected k n prompt raw0 Hgen0 Hrej0).
    rewrite (IH k (S n)); [f_equal; lia | lia | |].
    + intros i Hi. destruct (Hbefore (S i) ltac:(lia)) as (raw' & Hg & Hr).
      exists raw'. split; [|exact Hr].
      now replace (S n + i)%nat with (n + S i)%nat by lia.
    + exists raw. split; [|exact Hacc].
      now replace (S n + j)%nat with (n + S j)%nat by lia.
Qed.

End Loop.

(** ** What the specification calls a failed and a successful attempt *)

(** Validation against the schema, as the specification words it: the
    parsed document has all six fields with the correct types. *)
Definition matches_schema (rt : Runtime) (data : json)
    : option ResumeScoreResponse :=
  match data with
  | JObject members => validate_model rt members
  | _ => None
  end.

(** The cleaned text fails JSON parsing or schema validation. *)
Definition attempt_fails (rt : Runtime) (text : str) : Prop :=
  match json_loads rt text with
  | Parsed data => matches_schema rt data = None
  | _ => True
  end.

(** The cleaned text parses and validates as [r]. *)
Definition attempt_succeeds (rt : Runtime) (text : str)
    (r : ResumeScoreResponse) : Prop :=
  exists data, json_loads rt text = Parsed data /\
               matches_schema rt data = Some r.

(** The cleaned text of the model call number [n]. *)
Definition cleaned (rt : Runtime) (prompt : str) (n : nat) : option str :=
  match generate_content rt prompt n with
  | inr raw => Some (clean_json (strip raw))
  | inl _ => None
  end.

Definition sample_members : list (str * json) :=
  [ (lit "summary", JString (lit "Backend developer."));
    (lit "skills_score", JInt 7);
    (lit "experience_score", JInt 6);
    (lit "overall_score", JInt 7);
    (lit "feedback", JString (lit "Add metrics."));
    (lit "missing_aspects", JArray []) ].

Definition sample_text : str :=
  lit "{" ++ quoted "summary" ++ lit ": " ++ quoted "Backend developer."
  ++ lit ", " ++ quoted "skills_score" ++ lit ": 7"
  ++ lit ", " ++ quoted "experience_score" ++ lit ": 6"
  ++ lit ", " ++ quoted "overall_score" ++ lit ": 7"
  ++ lit ", " ++ quoted "feedback" ++ lit ": " ++ quoted "Add metrics."
  ++ lit ", " ++ quoted "missing_aspects" ++ lit ": []}".

Definition no_dumps (_ : json) : str := [].

(** The model answers [[]] to every call. *)
Definition rt_array : Runtime :=
  scripted [lit "[]"; lit "[]"; lit "[]"] [(lit "[]", JArray [])]
           [] no_dumps [].

(** The model answers [[]] first and a valid document next. *)
Definition rt_array_then_valid : Runtime :=
  scripted [lit "[]"; sample_text; sample_text]
           [(lit "[]", JArray []); (sample_text, JObject sample_members)]
           [] no_dumps [].

Definition sample_resume : json := JString (lit "my resume").

(** C1, on the failing input: the model answers the JSON array [[]] on
    every attempt.  The answer parses and does not match the schema, so
    every attempt fails; still the loop stops at the first attempt with
    one model call and an uncaught [TypeError], not after 3 calls with
    the "Model failed" error. *)
Theorem process_resume_array_answer :
  (forall i, (i < 3)%nat ->
     exists text, cleaned rt_array (make_prompt rt_array sample_resume) i = Some text /\
                  attempt_fails rt_array text) /\
  process_resume rt_array sample_resume 0%nat =
    (Raise (PyError TypeError (lit "argument after ** must be a mapping")),
     1%nat) /\
  process_resume rt_array sample_resume 0%nat <> (Raise model_failed, 3%nat).
Proof.
  split; [|split].
  - intros i Hi. exists (lit "[]").
    destruct i as [|[|[|i]]]; try lia; split; reflexivity.
  - reflexivity.
  - discriminate.
Qed.

(** C2, on the failing input: attempt 1 answers the JSON array [[]]
    (a failed attempt), attempt 2 a document that parses and validates.
    The loop does not return the attempt-2 object: it stops at attempt 1
    with an uncaught [TypeError]. *)
Theorem process_resume_array_then_valid :
  (exists text, cleaned rt_array_then_valid (make_prompt rt_array_then_valid sample_resume) 0%nat = Some text /\
                attempt_fails rt_array_then_valid text) /\
  (exists text r, cleaned rt_array_then_valid (make_prompt rt_array_then_valid sample_resume) 1%nat = Some text /\
                  attempt_succeeds rt_array_then_valid text r /\
                  process_resume rt_array_then_valid sample_resume 0%nat <> (Ret r, 2%nat)) /\
  process_resume rt_array_then_valid sample_resume 0%nat =
    (Raise (PyError TypeError (lit "argument after ** must be a mapping")),
     1%nat).
Proof.
  split; [|split].
  - exists (lit "[]"). split; reflexivity.
  - exists sample_text. eexists. split; [reflexivity|]. split.
    + exists (JObject sample_members). split; reflexivity.
    + discriminate.
  - reflexivity.
Qed.

(** The loop as the [except] clause anticipates it: three rejected
    answers give three model calls and the 500. *)
Lemma process_resume_exhausted (rt : Runtime) (v : json) (n : nat) :
  (forall i, (i < 3)%nat ->
     exists raw, generate_content rt (make_prompt rt v) (n + i) = inr raw /\
                 rejected rt (clean_json (strip raw))) ->
  process_resume rt v n = (Raise model_failed, (n + 3)%nat) /\
  status_of (fst (process_resume rt v n)) = 500.
Proof.
  intros Hall. unfold process_resume.
  rewrite (retry_loop_exhausted rt _ 3 n Hall). split; reflexivity.
Qed.

(** The first accepted answer is returned, with no call after it, when
    the answers before it are rejected. *)
Lemma process_resume_first_accepted (rt : Runtime) (v : json) (j n : nat) r :
  (j < 3)%nat ->
  (forall i, (i < j)%nat ->
     exists raw, generate_content rt (make_prompt rt v) (n + i) = inr raw /\
                 rejected rt (clean_json (strip raw))) ->
  (exists raw, generate_content rt (make_prompt rt v) (n + j) = inr raw /\
               accepted rt (clean_json (strip raw)) r) ->
  process_resume rt v n = (Ret r, (n + S j)%nat).
Proof.
  intros Hj Hbefore Hacc. unfold process_resume.
  exact (retry_loop_first_accepted rt _ 3 j n r Hj Hbefore Hacc).
Qed.

(** ** [clean_json] *)

(** A fenced answer whose feedback mentions the word json. *)
Definition fenced_feedback : str :=
  lit "```json" ++ nl
  ++ lit "{" ++ quoted "feedback" ++ lit ": "
  ++ quoted "Add json skills" ++ lit "}" ++ nl
  ++ lit "```".

(** C3, on the failing input: in a fenced answer every occurrence of
    the four letters json is deleted, also inside the JSON document, so
    the cleaned text is not the bare document. *)
Theorem clean_json_alters_payload :
  clean_json fenced_feedback =
    lit "{" ++ quoted "feedback" ++ lit ": " ++ quoted "Add  skills" ++ lit "}"
  /\ clean_json fenced_feedback <>
    lit "{" ++ quoted "feedback" ++ lit ": " ++ quoted "Add json skills"
    ++ lit "}".
Proof.
  split; [reflexivity|discriminate].
Qed.

(** ** [clean_json] on a fenced document free of the tag *)

(** [old] occurs somewhere in [s] (for a non-empty [old]). *)
Fixpoint occurs (old s : str) : bool :=
  match s with
  | [] => false
  | _ :: s' => startswith s old || occurs old s'
  end.

Lemma replace_from_absent (old new s : str) :
  occurs old s = false -> replace_from old new O s = s.
Proof.
  induction s as [|c s IH]; [reflexivity|].
  cbn [occurs replace_from]. intros H.
  apply orb_false_iff in H as [H1 H2].
  rewrite H1, (IH H2). reflexivity.
Qed.

Definition tag : str := [106; 115; 111; 110]%N.

Lemma startswith_tag_newline (s : str) :
  startswith (s ++ nl) tag = startswith s tag.
Proof.
  unfold tag, nl.
  destruct s as [|a [|b [|c [|d s]]]]; cbn [app startswith];
    try reflexivity;
    repeat match goal with
           | |- context [N.eqb 10 ?k] =>
               change (N.eqb 10 k) with false
           end;
    rewrite ?andb_false_r; try reflexivity.
  destruct s; reflexivity.
Qed.

Lemma occurs_tag_newline (s : str) :
  occurs tag (s ++ nl) = occurs tag s.
Proof.
  induction s as [|c s IH]; [reflexivity|].
  change ((c :: s) ++ nl) with (c :: (s ++ nl)).
  cbn [occurs]. rewrite IH. f_equal.
  apply (startswith_tag_newline (c :: s)).
Qed.

Lemma lstrip_by_stop (p : char -> bool) (c : char) (s : str) :
  p c = false -> lstrip_by p (c :: s) = c :: s.
Proof.
  intros H. simpl. now rewrite H.
Qed.

(** A fenced document that does not contain the four letters json, and
    has no white space at its ends, is cleaned to the document. *)
Lemma clean_json_fenced_document (c d : char) (mid : str) :
  isspace c = false -> isspace d = false ->
  occurs tag (c :: mid ++ [d]) = false ->
  clean_json (lit "```json" ++ nl ++ (c :: mid ++ [d]) ++ nl ++ lit "```")
    = c :: mid ++ [d].
Proof.
  intros Hc Hd Hocc.
  set (p := c :: mid ++ [d]) in *.
  assert (Hfence :
    strip_chars (lit "`") (lit "```json" ++ nl ++ p ++ nl ++ lit "```")
      = tag ++ nl ++ p ++ nl).
  { unfold strip_chars, strip_by, rstrip_by.
    change (lstrip_by (char_in (lit "`"))
              (lit "```json" ++ nl ++ p ++ nl ++ lit "```"))
      with (tag ++ nl ++ p ++ nl ++ lit "```").
    rewrite !rev_app_distr, <- !app_assoc.
    change (rev (lit "```")) with (lit "```").
    change (rev nl) with nl.
    change (lstrip_by (char_in (lit "`"))
              (lit "```" ++ nl ++ rev p ++ nl ++ rev tag))
      with (nl ++ rev p ++ nl ++ rev tag).
    rewrite !rev_app_distr, !rev_involutive, <- !app_assoc.
    reflexivity. }
  assert (Hrep : replace (lit "json") [] (tag ++ nl ++ p ++ nl)
                 = nl ++ p ++ nl).
  { change (replace (lit "json") [] (tag ++ nl ++ p ++ nl))
      with (replace_from tag [] O (nl ++ p ++ nl)).
    apply replace_from_absent.
    change (nl ++ p ++ nl) with (10%N :: (p ++ nl)).
    cbn [occurs]. rewrite occurs_tag_newline, Hocc. reflexivity. }
  unfold clean_json.
  change (startswith (lit "```json" ++ nl ++ p ++ nl ++ lit "```")
            (lit "```")) with true.
  cbv iota. rewrite Hfence, Hrep.
  unfold strip, strip_by, rstrip_by.
  change (lstrip_by isspace (nl ++ p ++ nl))
    with (lstrip_by isspace (c :: (mid ++ [d]) ++ nl)).
  rewrite (lstrip_by_stop isspace c _ Hc).
  change (c :: (mid ++ [d]) ++ nl) with (p ++ nl).
  rewrite rev_app_distr.
  change (rev nl ++ rev p) with (10%N :: rev p).
  unfold p at 1.
  change (c :: mid ++ [d]) with ((c :: mid) ++ [d]).
  rewrite rev_app_distr.
  change (lstrip_by isspace (10%N :: rev [d] ++ rev (c :: mid)))
    with (lstrip_by isspace (d :: rev (c :: mid))).
  rewrite (lstrip_by_stop isspace d _ Hd).
  change (d :: rev (c :: mid)) with (rev [d] ++ rev (c :: mid)).
  rewrite <- rev_app_distr, rev_involutive. reflexivity.
Qed.

(** ** Validation *)

(** A JSON number as a [float]. *)
Definition number (v : json) : option float :=
  match v with
  | JFloat f => Some f
  | JInt z => float_of_int z
  | _ => None
  end.

(** A score within the range the prompt asks for. *)
Definition in_range (f : float) : bool :=
  SFleb (binary_normalize 53 1024 1 0 false) f
  && SFleb f (binary_normalize 53 1024 10 0 false).

Section Validation.

Variable rt : Runtime.

Lemma validate_float_number (v : json) (f : float) :
  number v = Some f -> validate_float rt v = Some f.
Proof.
  destruct v; simpl; try discriminate; auto.
Qed.

Lemma validate_items_strings (l : list str) :
  validate_items rt (map JString l) = Some l.
Proof.
  induction l as [|s l IH]; simpl; [reflexivity|]. now rewrite IH.
Qed.

Lemma validate_and_parse_json_valid (text : str) members r :
  json_loads rt text = Parsed (JObject members) ->
  validate_model rt members = Some r ->
  validate_and_parse_json rt text = Ret (Some (JObject members)) /\
  new_ResumeScoreResponse rt (JObject members) = Ret r.
Proof.
  intros Hl Hv. unfold validate_and_parse_json, parse_and_validate.
  rewrite Hl. simpl. now rewrite Hv.
Qed.

End Validation.

(** The document has the six fields, each a JSON value of the kind the
    schema names: strings, numbers and a list of strings. *)
Definition typed_document (members : list (str * json)) (s : str)
    (vsk vex vov : json) (fb : str) (ma : list str) : Prop :=
  dict_lookup members (lit "summary") = Some (JString s) /\
  dict_lookup members (lit "skills_score") = Some vsk /\
  dict_lookup members (lit "experience_score") = Some vex /\
  dict_lookup members (lit "overall_score") = Some vov /\
  dict_lookup members (lit "feedback") = Some (JString fb) /\
  dict_lookup members (lit "missing_aspects") = Some (JArray (map JString ma)).

(** A document with the scores and the missing aspects given. *)
Definition document (vsk vex vov : json) (ma : list str)
    : list (str * json) :=
  [ (lit "summary", JString (lit "Backend developer."));
    (lit "skills_score", vsk);
    (lit "experience_score", vex);
    (lit "overall_score", vov);
    (lit "feedback", JString (lit "Add metrics."));
    (lit "missing_aspects", JArray (map JString ma)) ].

(** Its text, from the texts of the scores and of the list. *)
Definition document_text (sk ex ov : string) (ma : str) : str :=
  lit "{" ++ quoted "summary" ++ lit ": " ++ quoted "Backend developer."
  ++ lit ", " ++ quoted "skills_score" ++ lit ": " ++ lit sk
  ++ lit ", " ++ quoted "experience_score" ++ lit ": " ++ lit ex
  ++ lit ", " ++ quoted "overall_score" ++ lit ": " ++ lit ov
  ++ lit ", " ++ quoted "feedback" ++ lit ": " ++ quoted "Add metrics."
  ++ lit ", " ++ quoted "missing_aspects" ++ lit ": " ++ ma ++ lit "}".

(** The model answers [text], which [json.loads] reads as [members]. *)
Definition rt_answer (text : str) (members : list (str * json)) : Runtime :=
  scripted [text] [(text, JObject members)] [] no_dumps [].

(** [-2.5] *)
Definition minus_two_and_a_half : float :=
  binary_normalize 53 1024 (-5) (-1) false.

(** The integer a [float] is equal to, if it is one. *)
Definition int_value (f : float) : option Z :=
  match f with
  | S754_zero _ => Some 0
  | S754_finite s m e =>
      let a := if s then Z.neg m else Z.pos m in
      if 0 <=? e then Some (a * 2 ^ e)
      else if a mod 2 ^ (- e) =? 0 then Some (a / 2 ^ (- e)) else None
  | _ => None
  end.

(** C4, amended: a document with the six fields of the correct types,
    each score a JSON float or a JSON integer that fits a double,
    validates whatever the values of its scores, within 1-10 or not,
    and the response carries each score as a float: a JSON float as it
    is, a JSON integer converted to the nearest double. *)
Theorem validation_ignores_score_range (rt : Runtime) (text : str)
    (members : list (str * json)) (s fb : str) (ma : list str)
    (vsk vex vov : json) (sk ex ov : float) :
  json_loads rt text = Parsed (JObject members) ->
  typed_document members s vsk vex vov fb ma ->
  number vsk = Some sk -> number vex = Some ex -> number vov = Some ov ->
  validate_and_parse_json rt text = Ret (Some (JObject members)) /\
  forall (v : json) (n : nat) (raw : str),
    generate_content rt (make_prompt rt v) n = inr raw ->
    clean_json (strip raw) = text ->
    process_resume rt v n =
      (Ret {| summary := s; skills_score := sk; experience_score := ex;
              overall_score := ov; feedback := fb; missing_aspects := ma |},
       S n).
Proof.
  intros Hl (Hs & Hsk & Hex & Hov & Hfb & Hma) Nsk Nex Nov.
  assert (Hv : validate_model rt members =
               Some {| summary := s; skills_score := sk;
                       experience_score := ex; overall_score := ov;
                       feedback := fb; missing_aspects := ma |}).
  { unfold validate_model, field.
    rewrite Hs, Hsk, Hex, Hov, Hfb, Hma. simpl.
    rewrite (validate_float_number rt _ _ Nsk),
            (validate_float_number rt _ _ Nex),
            (validate_float_number rt _ _ Nov),
            validate_items_strings.
    reflexivity. }
  split.
  - apply (validate_and_parse_json_valid rt text members _ Hl Hv).
  - intros v n raw Hgen Hclean. unfold process_resume.
    apply (retry_loop_accepted rt 2 n _ raw _ Hgen).
    rewrite Hclean. exists members. split; assumption.
Qed.

Definition two_aspects : list str := [lit "Projects"; lit "Education"].

Definition out_of_range_members : list (str * json) :=
  document (JInt 15) (JFloat minus_two_and_a_half) (JInt 0) two_aspects.

Definition out_of_range_text : str :=
  document_text "15" "-2.5" "0"
    (lit "[" ++ quoted "Projects" ++ lit ", " ++ quoted "Education"
     ++ lit "]").

Definition rt_out_of_range : Runtime :=
  rt_answer out_of_range_text out_of_range_members.

(** Scores 15, -2.5 and 0 are outside 1-10 and reach the response. *)
Lemma validation_ignores_score_range_witness :
  exists r,
    process_resume rt_out_of_range sample_resume 0%nat = (Ret r, 1%nat) /\
    int_value (skills_score r) = Some 15 /\
    experience_score r = minus_two_and_a_half /\
    int_value (overall_score r) = Some 0 /\
    in_range (skills_score r) = false /\
    in_range (experience_score r) = false /\
    in_range (overall_score r) = false.
Proof.
  destruct (validation_ignores_score_range rt_out_of_range out_of_range_text
              out_of_range_members (lit "Backend developer.")
              (lit "Add metrics.") two_aspects
              (JInt 15) (JFloat minus_two_and_a_half) (JInt 0)
              (binary_normalize 53 1024 15 0 false) minus_two_and_a_half
              (S754_zero false))
    as [_ Hrun].
  - vm_compute. reflexivity.
  - repeat split.
  - reflexivity.
  - reflexivity.
  - reflexivity.
  - eexists. split.
    + apply (Hrun sample_resume 0%nat out_of_range_text); reflexivity.
    + repeat split.
Defined.

(** The integer [2 ^ 1024] does not fit a double. *)
Definition huge : Z := 2 ^ 1024.

Definition two_aspects_text : str :=
  lit "[" ++ quoted "Projects" ++ lit ", " ++ quoted "Education" ++ lit "]".

Definition huge_members : list (str * json) :=
  document (JInt huge) (JInt 6) (JInt 7) two_aspects.

Definition huge_text : str :=
  document_text (NilZero.string_of_int (Z.to_int huge)) "6" "7"
    two_aspects_text.

(** The model answers the document with the huge score every time. *)
Definition rt_huge : Runtime :=
  scripted [huge_text; huge_text; huge_text]
           [(huge_text, JObject huge_members)] [] no_dumps [].

(** The integer [2 ^ 53 + 1] is not a double. *)
Definition odd_members : list (str * json) :=
  document (JInt (2 ^ 53 + 1)) (JInt 6) (JInt 7) two_aspects.

Definition odd_text : str :=
  document_text "9007199254740993" "6" "7" two_aspects_text.

Definition rt_odd : Runtime := rt_answer odd_text odd_members.

(** C4 fails as stated.  A document with the six fields of the correct
    types whose [skills_score] is the integer [2 ^ 1024], a numeric
    value outside 1-10, does not validate: the answer is discarded and
    the request ends with the 500.  And the score [2 ^ 53 + 1] is
    accepted but reaches the response as [2 ^ 53], not unchanged. *)
Lemma score_not_accepted_or_changed :
  (typed_document huge_members (lit "Backend developer.")
     (JInt huge) (JInt 6) (JInt 7) (lit "Add metrics.") two_aspects /\
   json_loads rt_huge huge_text = Parsed (JObject huge_members) /\
   validate_and_parse_json rt_huge huge_text = Ret None /\
   process_resume rt_huge sample_resume 0%nat = (Raise model_failed, 3%nat))
  /\
  (typed_document odd_members (lit "Backend developer.")
     (JInt (2 ^ 53 + 1)) (JInt 6) (JInt 7) (lit "Add metrics.") two_aspects /\
   exists r,
     process_resume rt_odd sample_resume 0%nat = (Ret r, 1%nat) /\
     int_value (skills_score r) = Some (2 ^ 53) /\
     2 ^ 53 <> 2 ^ 53 + 1).
Proof.
  split.
  - split; [repeat split|]. split; [vm_compute; reflexivity|].
    split; vm_compute; reflexivity.
  - split; [repeat split|]. eexists. split; [vm_compute; reflexivity|].
    split; [vm_compute; reflexivity | lia].
Qed.

(** C5: in a document whose other five fields validate, any list of
    strings validates as [missing_aspects], whatever its length. *)
Theorem validation_ignores_list_length (rt : Runtime) (text : str)
    (members : list (str * json)) (s fb : str) (sk ex ov : float)
    (ma : list str) :
  json_loads rt text = Parsed (JObject members) ->
  field members "summary" (validate_str rt) = Some s ->
  field members "skills_score" (validate_float rt) = Some sk ->
  field members "experience_score" (validate_float rt) = Some ex ->
  field members "overall_score" (validate_float rt) = Some ov ->
  field members "feedback" (validate_str rt) = Some fb ->
  dict_lookup members (lit "missing_aspects")
    = Some (JArray (map JString ma)) ->
  validate_and_parse_json rt text = Ret (Some (JObject members)) /\
  new_ResumeScoreResponse rt (JObject members) =
    Ret {| summary := s; skills_score := sk; experience_score := ex;
           overall_score := ov; feedback := fb; missing_aspects := ma |}.
Proof.
  intros Hl Hs Hsk Hex Hov Hfb Hma.
  apply (validate_and_parse_json_valid rt text members _ Hl).
  unfold validate_model. rewrite Hs, Hsk, Hex, Hov, Hfb.
  unfold field. rewrite Hma. simpl.
  now rewrite validate_items_strings.
Qed.

Definition five_aspects : list str :=
  [lit "a"; lit "b"; lit "c"; lit "d"; lit "e"].

Definition five_aspects_text : str :=
  lit "[" ++ quoted "a" ++ lit ", " ++ quoted "b" ++ lit ", " ++ quoted "c"
  ++ lit ", " ++ quoted "d" ++ lit ", " ++ quoted "e" ++ lit "]".

(** Lists of no, one and five aspects are accepted. *)
Lemma validation_ignores_list_length_witness :
  (exists r,
     new_ResumeScoreResponse
       (rt_answer (document_text "7" "6" "7" (lit "[]"))
                  (document (JInt 7) (JInt 6) (JInt 7) []))
       (JObject (document (JInt 7) (JInt 6) (JInt 7) [])) = Ret r /\
     missing_aspects r = []) /\
  (exists r,
     new_ResumeScoreResponse
       (rt_answer (document_text "7" "6" "7"
                     (lit "[" ++ quoted "Projects" ++ lit "]"))
                  (document (JInt 7) (JInt 6) (JInt 7) [lit "Projects"]))
       (JObject (document (JInt 7) (JInt 6) (JInt 7) [lit "Projects"]))
     = Ret r /\
     missing_aspects r = [lit "Projects"]) /\
  (exists r,
     new_ResumeScoreResponse
       (rt_answer (document_text "7" "6" "7" five_aspects_text)
                  (document (JInt 7) (JInt 6) (JInt 7) five_aspects))
       (JObject (document (JInt 7) (JInt 6) (JInt 7) five_aspects)) = Ret r /\
     missing_aspects r = five_aspects).
Proof.
  split; [|split].
  - eexists. split.
    + apply (validation_ignores_list_length
             (rt_answer (document_text "7" "6" "7" (lit "[]"))
                        (document (JInt 7) (JInt 6) (JInt 7) []))
             (document_text "7" "6" "7" (lit "[]"))
             (document (JInt 7) (JInt 6) (JInt 7) [])
             (lit "Backend developer.") (lit "Add metrics.")
             (binary_normalize 53 1024 7 0 false)
             (binary_normalize 53 1024 6 0 false)
             (binary_normalize 53 1024 7 0 false) []);
      vm_compute; reflexivity.
    + reflexivity.
  - eexists. split.
    + apply (validation_ignores_list_length
             (rt_answer (document_text "7" "6" "7"
                           (lit "[" ++ quoted "Projects" ++ lit "]"))
                        (document (JInt 7) (JInt 6) (JInt 7) [lit "Projects"]))
             (document_text "7" "6" "7"
                (lit "[" ++ quoted "Projects" ++ lit "]"))
             (document (JInt 7) (JInt 6) (JInt 7) [lit "Projects"])
             (lit "Backend developer.") (lit "Add metrics.")
             (binary_normalize 53 1024 7 0 false)
             (binary_normalize 53 1024 6 0 false)
             (binary_normalize 53 1024 7 0 false) [lit "Projects"]);
      vm_compute; reflexivity.
    + reflexivity.
  - eexists. split.
    + apply (validation_ignores_list_length
             (rt_answer (document_text "7" "6" "7" five_aspects_text)
                        (document (JInt 7) (JInt 6) (JInt 7) five_aspects))
             (document_text "7" "6" "7" five_aspects_text)
             (document (JInt 7) (JInt 6) (JInt 7) five_aspects)
             (lit "Backend developer.") (lit "Add metrics.")
             (binary_normalize 53 1024 7 0 false)
             (binary_normalize 53 1024 6 0 false)
             (binary_normalize 53 1024 7 0 false) five_aspects);
      vm_compute; reflexivity.
    + reflexivity.
Defined.

(** ** Uploads *)

(** The bytes of a text of ASCII characters. *)
Definition ascii_bytes (s : str) : list Byte.byte :=
  map (fun c => match Byte.of_N c with Some b => b | None => Byte.x3f end) s.

Definition pdf_type : str := lit "application/pdf".
Definition json_type : str := lit "application/json".

Section Uploads.

Variable rt : Runtime.

Lemma content_type_is_true (f : UploadFile) (t : string) :
  content_type f = Some (lit t) -> content_type_is f t = true.
Proof.
  unfold content_type_is. intros ->. apply str_eqb_refl.
Qed.

Lemma content_type_is_false (f : UploadFile) (t : string) :
  content_type f <> Some (lit t) -> content_type_is f t = false.
Proof.
  unfold content_type_is. destruct (content_type f) as [c|]; [|reflexivity].
  intros Hne. destruct (str_eqb c (lit t)) eqn:E; [|reflexivity].
  apply str_eqb_eq in E. now subst.
Qed.

(** The JSON branch of [upload_resume]. *)
Lemma upload_resume_json (f : UploadFile) (n : nat) :
  content_type f = Some json_type ->
  upload_resume rt f n =
  match except_Exception (read_json_upload rt f) invalid_json with
  | Ret v => process_resume rt v n
  | Raise e => (Raise e, n)
  end.
Proof.
  intros Hct. unfold upload_resume.
  rewrite (content_type_is_false f "application/pdf")
    by (rewrite Hct; discriminate).
  rewrite (content_type_is_true f "application/json") by exact Hct.
  unfold bind, lift.
  destruct (except_Exception (read_json_upload rt f) invalid_json);
    reflexivity.
Qed.

(** The PDF branch of [upload_resume]. *)
Lemma upload_resume_pdf (f : UploadFile) (n : nat) :
  content_type f = Some pdf_type ->
  upload_resume rt f n =
  match extract_text_from_pdf rt f with
  | Ret text => process_resume rt (JString text) n
  | Raise e => (Raise e, n)
  end.
Proof.
  intros Hct. unfold upload_resume.
  rewrite (content_type_is_true f "application/pdf") by exact Hct.
  unfold bind, lift. destruct (extract_text_from_pdf rt f); reflexivity.
Qed.

Lemma read_json_upload_object (f : UploadFile) members :
  json_load rt (file f) = Some (JObject members) ->
  read_json_upload rt f =
  Ret (py_or (dict_get members (lit "resume_text"))
             (JString (json_dumps rt (JObject members)))).
Proof.
  intros Hl. unfold read_json_upload. now rewrite Hl.
Qed.

Lemma read_pages_concat (ts : list (option str)) (text : str) :
  read_pages (map inr ts) text = inr (text ++ List.concat (map text_or_empty ts)).
Proof.
  revert text; induction ts as [|t ts IH]; intros text; simpl.
  - now rewrite app_nil_r.
  - rewrite IH. now rewrite app_assoc.
Qed.

End Uploads.

(** The text a page contributes: what it extracts, or nothing. *)
Definition page_text (t : option str) : str :=
  match t with
  | Some s => s
  | None => []
  end.

Lemma text_or_empty_page_text (t : option str) :
  text_or_empty t = page_text t.
Proof.
  destruct t as [[|c s]|]; reflexivity.
Qed.

Definition upload (ctype : str) (body : str) : UploadFile :=
  {| content_type := Some ctype; file := ascii_bytes body |}.

(** *** C6 *)

(** The upload whose only field is an empty [resume_text]. *)
Definition empty_field_text : str :=
  lit "{" ++ quoted "resume_text" ++ lit ": " ++ dq ++ dq ++ lit "}".

Definition empty_field_members : list (str * json) :=
  [(lit "resume_text", JString [])].

Definition rt_empty_field : Runtime :=
  scripted [] [] [(ascii_bytes empty_field_text, JObject empty_field_members)]
           (fun _ => empty_field_text) [].

(** C6 fails as stated: this upload has the [resume_text] field,
    yet the resume text is the serialized document, not the field's
    value, and the prompt sent to the model differs accordingly. *)
Lemma upload_json_empty_field_not_used :
  dict_lookup empty_field_members (lit "resume_text") = Some (JString []) /\
  read_json_upload rt_empty_field (upload json_type empty_field_text)
    = Ret (JString empty_field_text) /\
  upload_resume rt_empty_field (upload json_type empty_field_text) 0%nat
    = process_resume rt_empty_field (JString empty_field_text) 0%nat /\
  make_prompt rt_empty_field (JString empty_field_text)
    <> make_prompt rt_empty_field (JString []).
Proof.
  split; [reflexivity|]. split; [reflexivity|]. split.
  - rewrite upload_resume_json by reflexivity. reflexivity.
  - vm_compute. discriminate.
Qed.

(** C6, amended: for a JSON upload that parses to an object, a
    [resume_text] field with a truthy value is the resume text; when the
    field is absent, or its value is falsy, the resume text is the
    serialization of the whole document; a body that does not parse
    fails with the 400 "Invalid JSON file". *)
Theorem upload_json_resume_text (rt : Runtime) (f : UploadFile) (n : nat) :
  content_type f = Some json_type ->
  (forall members v,
     json_load rt (file f) = Some (JObject members) ->
     dict_lookup members (lit "resume_text") = Some v ->
     truthy v = true ->
     upload_resume rt f n = process_resume rt v n) /\
  (forall members,
     json_load rt (file f) = Some (JObject members) ->
     dict_lookup members (lit "resume_text") = None \/
     (exists v, dict_lookup members (lit "resume_text") = Some v /\
                truthy v = false) ->
     upload_resume rt f n =
       process_resume rt (JString (json_dumps rt (JObject members))) n) /\
  (json_load rt (file f) = None ->
   upload_resume rt f n = (Raise invalid_json, n)).
Proof.
  intros Hct. rewrite (upload_resume_json rt f n Hct).
  split; [|split].
  - intros members v Hl Hk Hv.
    rewrite (read_json_upload_object rt f members Hl).
    unfold dict_get, py_or. rewrite Hk, Hv. reflexivity.
  - intros members Hl Hk.
    rewrite (read_json_upload_object rt f members Hl).
    unfold dict_get, py_or. destruct Hk as [Hk | (v & Hk & Hv)]; rewrite Hk.
    + reflexivity.
    + rewrite Hv. reflexivity.
  - intros Hl. unfold read_json_upload. rewrite Hl. reflexivity.
Qed.

(** The uploads [{"resume_text": "foo"}] and [{"other": "bar"}]. *)
Definition foo_text : str :=
  lit "{" ++ quoted "resume_text" ++ lit ": " ++ quoted "foo" ++ lit "}".

Definition bar_text : str :=
  lit "{" ++ quoted "other" ++ lit ": " ++ quoted "bar" ++ lit "}".

Definition foo_members : list (str * json) :=
  [(lit "resume_text", JString (lit "foo"))].

Definition bar_members : list (str * json) :=
  [(lit "other", JString (lit "bar"))].

(** Reads the two uploads; [json.dumps] gives the second one back. *)
Definition rt_foo_bar : Runtime :=
  scripted []
    []
    [(ascii_bytes foo_text, JObject foo_members);
     (ascii_bytes bar_text, JObject bar_members)]
    (fun _ => bar_text) [].

Lemma upload_json_resume_text_witness :
  upload_resume rt_foo_bar (upload json_type foo_text) 0%nat
    = process_resume rt_foo_bar (JString (lit "foo")) 0%nat /\
  upload_resume rt_foo_bar (upload json_type bar_text) 0%nat
    = process_resume rt_foo_bar (JString bar_text) 0%nat.
Proof.
  split.
  - apply (proj1 (upload_json_resume_text rt_foo_bar
                    (upload json_type foo_text) 0%nat eq_refl)
             foo_members (JString (lit "foo"))); reflexivity.
  - apply (proj1 (proj2 (upload_json_resume_text rt_foo_bar
                           (upload json_type bar_text) 0%nat eq_refl))
             bar_members); [reflexivity | left; reflexivity].
Defined.

(** *** C9 *)

(** C9: when the [resume_text] field of the uploaded object holds the
    empty string, null, 0 or false, the resume text is the
    serialization of the whole document. *)
Theorem upload_json_falsy_field (rt : Runtime) (f : UploadFile) (n : nat)
    (members : list (str * json)) (v : json) :
  content_type f = Some json_type ->
  json_load rt (file f) = Some (JObject members) ->
  dict_lookup members (lit "resume_text") = Some v ->
  v = JString [] \/ v = JNull \/ v = JInt 0 \/ v = JBool false ->
  read_json_upload rt f = Ret (JString (json_dumps rt (JObject members))) /\
  upload_resume rt f n =
    process_resume rt (JString (json_dumps rt (JObject members))) n.
Proof.
  intros Hct Hl Hk Hv.
  assert (Hf : truthy v = false)
    by (destruct Hv as [-> | [-> | [-> | ->]]]; reflexivity).
  rewrite (upload_resume_json rt f n Hct).
  rewrite (read_json_upload_object rt f members Hl).
  unfold dict_get, py_or. rewrite Hk, Hf. split; reflexivity.
Qed.

Lemma upload_json_falsy_field_witness :
  read_json_upload rt_empty_field (upload json_type empty_field_text)
    = Ret (JString empty_field_text) /\
  upload_resume rt_empty_field (upload json_type empty_field_text) 0%nat
    = process_resume rt_empty_field (JString empty_field_text) 0%nat.
Proof.
  apply (upload_json_falsy_field rt_empty_field
           (upload json_type empty_field_text) 0%nat
           empty_field_members (JString [])).
  - reflexivity.
  - reflexivity.
  - reflexivity.
  - left. reflexivity.
Defined.

(** *** C10 *)

(** C10: an upload that is JSON but not an object fails with the 400
    "Invalid JSON file", the error of an upload that does not parse,
    and the model is not called. *)
Theorem upload_json_not_object (rt : Runtime) (f : UploadFile) (n : nat)
    (data : json) :
  content_type f = Some json_type ->
  json_load rt (file f) = Some data ->
  (forall members, data <> JObject members) ->
  upload_resume rt f n =
    (Raise (HTTPException 400 (lit "Invalid JSON file")), n) /\
  forall g : UploadFile,
    content_type g = Some json_type ->
    json_load rt (file g) = None ->
    upload_resume rt g n = upload_resume rt f n.
Proof.
  intros Hct Hl Hd.
  assert (Hf : upload_resume rt f n = (Raise invalid_json, n)).
  { rewrite (upload_resume_json rt f n Hct).
    unfold read_json_upload. rewrite Hl.
    destruct data; try reflexivity. now contradiction (Hd members). }
  split; [exact Hf|].
  intros g Hg Hn. rewrite Hf, (upload_resume_json rt g n Hg).
  unfold read_json_upload. now rewrite Hn.
Qed.

(** Reads the upload [[1, 2]]; any other body does not parse. *)
Definition rt_array_upload : Runtime :=
  scripted [] [] [(ascii_bytes (lit "[1, 2]"), JArray [JInt 1; JInt 2])]
           no_dumps [].

Lemma upload_json_not_object_witness :
  upload_resume rt_array_upload (upload json_type (lit "[1, 2]")) 0%nat =
    (Raise (HTTPException 400 (lit "Invalid JSON file")), 0%nat) /\
  upload_resume rt_array_upload (upload json_type (lit "{oops")) 0%nat =
  upload_resume rt_array_upload (upload json_type (lit "[1, 2]")) 0%nat.
Proof.
  destruct (upload_json_not_object rt_array_upload
              (upload json_type (lit "[1, 2]")) 0%nat
              (JArray [JInt 1; JInt 2])) as [Hf Hsame].
  - reflexivity.
  - reflexivity.
  - discriminate.
  - split; [exact Hf|]. apply Hsame; reflexivity.
Defined.

(** *** C8 *)

(** C8: an upload that is neither a PDF nor JSON fails with the 400
    "Only PDF or JSON files are supported", and the model is not
    called. *)
Theorem upload_unsupported_type (rt : Runtime) (f : UploadFile) (n : nat) :
  content_type f <> Some pdf_type ->
  content_type f <> Some json_type ->
  upload_resume rt f n =
    (Raise (HTTPException 400 (lit "Only PDF or JSON files are supported")),
     n) /\
  status_of (fst (upload_resume rt f n)) = 400.
Proof.
  intros Hp Hj. unfold upload_resume.
  rewrite (content_type_is_false f "application/pdf" Hp).
  rewrite (content_type_is_false f "application/json" Hj).
  split; reflexivity.
Qed.

Lemma upload_unsupported_type_witness :
  upload_resume rt_array (upload (lit "text/plain") (lit "my resume")) 0%nat =
    (Raise (HTTPException 400 (lit "Only PDF or JSON files are supported")),
     0%nat) /\
  status_of (fst (upload_resume rt_array
                    (upload (lit "text/plain") (lit "my resume")) 0%nat))
    = 400.
Proof.
  apply (upload_unsupported_type rt_array
           (upload (lit "text/plain") (lit "my resume")) 0%nat);
    discriminate.
Defined.

(** *** C7 *)

(** A PDF of one page whose text ends with a line break. *)
Definition rt_one_page : Runtime :=
  scripted [] [] [] no_dumps [inr (Some (lit "Hello" ++ nl))].

(** C7 fails as stated: the page's text ends with a line break, and the
    resume text is not the concatenation of the pages' texts. *)
Lemma extract_text_not_concatenation :
  extract_text_from_pdf rt_one_page (upload pdf_type (lit "%PDF-1.4"))
    = Ret (lit "Hello") /\
  lit "Hello" <> List.concat [lit "Hello" ++ nl].
Proof.
  split; [reflexivity|discriminate].
Qed.

(** C7, amended: when the PDF opens and no page fails, the resume text
    passed to the scoring loop is the concatenation of the pages' texts
    in page order, a page without text counting as the empty string,
    with the white space at both ends of the whole removed. *)
Theorem extract_text_stripped_concatenation (rt : Runtime) (f : UploadFile)
    (n : nat) (ts : list (option str)) :
  content_type f = Some pdf_type ->
  PdfReader rt (file f) = inr (map inr ts) ->
  extract_text_from_pdf rt f = Ret (strip (List.concat (map page_text ts))) /\
  upload_resume rt f n =
    process_resume rt (JString (strip (List.concat (map page_text ts)))) n.
Proof.
  intros Hct Hr.
  assert (He : extract_text_from_pdf rt f =
               Ret (strip (List.concat (map page_text ts)))).
  { unfold extract_text_from_pdf. rewrite Hr, read_pages_concat. simpl.
    do 3 f_equal. apply map_ext, text_or_empty_page_text. }
  split; [exact He|].
  rewrite (upload_resume_pdf rt f n Hct), He. reflexivity.
Qed.

(** Three pages, the second without text. *)
Definition rt_three_pages : Runtime :=
  scripted [] [] [] no_dumps
    [inr (Some (lit "  Jane Doe" ++ nl)); inr None; inr (Some (lit "Skills "))].

Lemma extract_text_stripped_concatenation_witness :
  extract_text_from_pdf rt_three_pages (upload pdf_type (lit "%PDF-1.4"))
    = Ret (lit "Jane Doe" ++ nl ++ lit "Skills") /\
  upload_resume rt_three_pages (upload pdf_type (lit "%PDF-1.4")) 0%nat =
    process_resume rt_three_pages
      (JString (lit "Jane Doe" ++ nl ++ lit "Skills")) 0%nat.
Proof.
  apply (extract_text_stripped_concatenation rt_three_pages
           (upload pdf_type (lit "%PDF-1.4")) 0%nat
           [Some (lit "  Jane Doe" ++ nl); None; Some (lit "Skills ")]);
    reflexivity.
Defined.

(** * Further properties *)

(** ** The retry loop, case by case *)

Section LoopCases.

Variable rt : Runtime.

(** One turn of the loop, by what the model call and [json.loads]
    give. *)
Lemma retry_loop_cases (k n : nat) (prompt : str) :
  retry_loop rt (S k) prompt n =
  match generate_content rt prompt n with
  | inl (cls, msg) => (Raise (PyError cls msg), S n)
  | inr raw =>
      match json_loads rt (clean_json (strip raw)) with
      | DecodeError _ => retry_loop rt k prompt (S n)
      | LoadsRaises e msg => (Raise (PyError (class_of e) msg), S n)
      | Parsed (JObject members) =>
          match validate_model rt members with
          | Some r => (Ret r, S n)
          | None => retry_loop rt k prompt (S n)
          end
      | Parsed _ =>
          (Raise (PyError TypeError
                    (lit "argument after ** must be a mapping")), S n)
      end
  end.
Proof.
  destruct (generate_content rt prompt n) as [[cls msg]|raw] eqn:Hgen.
  - simpl. unfold bind at 1, call_gemini. rewrite Hgen. reflexivity.
  - rewrite (retry_loop_step rt k n prompt raw Hgen).
    unfold validate_and_parse_json, parse_and_validate.
    destruct (json_loads rt (clean_json (strip raw))) as [data|msg|e msg];
      [|reflexivity|destruct e; reflexivity].
    destruct data; try reflexivity.
    simpl. destruct (validate_model rt members) as [r|] eqn:Hv;
      [|reflexivity].
    rewrite (validate_model_nonempty rt members r Hv). simpl.
    now rewrite Hv.
Qed.

Lemma rejected_cases (text : str) :
  rejected rt text <->
  (exists msg, json_loads rt text = DecodeError msg) \/
  exists members, json_loads rt text = Parsed (JObject members) /\
                  validate_model rt members = None.
Proof. reflexivity. Qed.

(** The number of model calls of the loop: at most [k], and at least
    one when [k] is positive. *)
Lemma retry_loop_calls (prompt : str) (k n : nat) :
  (n <= snd (retry_loop rt k prompt n) <= n + k)%nat /\
  (k <> 0%nat -> n < snd (retry_loop rt k prompt n))%nat.
Proof.
  revert n; induction k as [|k IH]; intros n.
  - simpl. split; [lia|]. intros H; now contradiction H.
  - rewrite retry_loop_cases.
    assert (Hrec : (n <= snd (retry_loop rt k prompt (S n)) <= n + S k)%nat
                   /\ (n < snd (retry_loop rt k prompt (S n)))%nat).
    { destruct (IH (S n)) as [[H1 H2] _]. lia. }
    destruct (generate_content rt prompt n) as [[cls msg]|raw];
      [simpl; lia|].
    destruct (json_loads rt (clean_json (strip raw))) as [data|msg|e msg];
      [|split; [apply Hrec | intros _; apply Hrec]|simpl; lia].
    destruct data; try (simpl; lia).
    destruct (validate_model rt members);
      [simpl; lia | split; [apply Hrec | intros _; apply Hrec]].
Qed.

(** The answers of the calls [n], ..., [n + j - 1] are all rejected. *)
Definition all_rejected (prompt : str) (n j : nat) : Prop :=
  forall i, (i < j)%nat ->
    exists raw, generate_content rt prompt (n + i) = inr raw /\
                rejected rt (clean_json (strip raw)).

Lemma all_rejected_shift (prompt : str) (n j : nat) raw :
  generate_content rt prompt n = inr raw ->
  rejected rt (clean_json (strip raw)) ->
  all_rejected prompt (S n) j ->
  all_rejected prompt n (S j).
Proof.
  intros Hgen Hrej Hall [|i] Hi.
  - exists raw. now rewrite Nat.add_0_r.
  - destruct (Hall i ltac:(lia)) as (raw' & Hg & Hr). exists raw'.
    split; [|exact Hr].
    now replace (n + S i)%nat with (S n + i)%nat by lia.
Qed.

Lemma all_rejected_unshift (prompt : str) (n j : nat) :
  all_rejected prompt n (S j) -> all_rejected prompt (S n) j.
Proof.
  intros Hall i Hi. destruct (Hall (S i) ltac:(lia)) as (raw & Hg & Hr).
  exists raw. split; [|exact Hr].
  now replace (S n + i)%nat with (n + S i)%nat by lia.
Qed.

(** What an outcome of the loop tells about the model's answers. *)
Definition loop_outcome (prompt : str) (k n : nat)
    (out : res ResumeScoreResponse * nat) : Prop :=
  match out with
  | (Ret r, m) =>
      exists j, (j < k)%nat /\ m = (n + S j)%nat /\
                all_rejected prompt n j /\
                exists raw, generate_content rt prompt (n + j) = inr raw /\
                            accepted rt (clean_json (strip raw)) r
  | (Raise (HTTPException code detail), m) =>
      HTTPException code detail = model_failed /\ m = (n + k)%nat /\
      all_rejected prompt n k
  | (Raise (PyError cls msg), m) =>
      exists j, (j < k)%nat /\ m = (n + S j)%nat /\
                all_rejected prompt n j /\
                (generate_content rt prompt (n + j) = inl (cls, msg) \/
                 (cls = TypeError /\
                  exists raw, generate_content rt prompt (n + j) = inr raw /\
                              not_a_mapping rt (clean_json (strip raw))) \/
                 exists raw e,
                   generate_content rt prompt (n + j) = inr raw /\
                   json_loads rt (clean_json (strip raw)) = LoadsRaises e msg /\
                   cls = class_of e)
  end.

Lemma loop_outcome_next (prompt : str) (k n : nat) raw out :
  generate_content rt prompt n = inr raw ->
  rejected rt (clean_json (strip raw)) ->
  loop_outcome prompt k (S n) out ->
  loop_outcome prompt (S k) n out.
Proof.
  intros Hgen Hrej. destruct out as [[r|[code detail|cls msg]] m]; simpl.
  - intros (j & Hj & Hm & Hall & raw' & Hg & Ha).
    exists (S j). split; [lia|]. split; [lia|].
    split; [exact (all_rejected_shift prompt n j raw Hgen Hrej Hall)|].
    exists raw'. split; [|exact Ha].
    now replace (n + S j)%nat with (S n + j)%nat by lia.
  - intros (He & Hm & Hall). split; [exact He|]. split; [lia|].
    exact (all_rejected_shift prompt n k raw Hgen Hrej Hall).
  - intros (j & Hj & Hm & Hall & Hlast).
    exists (S j). split; [lia|]. split; [lia|].
    split; [exact (all_rejected_shift prompt n j raw Hgen Hrej Hall)|].
    replace (n + S j)%nat with (S n + j)%nat by lia. exact Hlast.
Qed.

Lemma all_rejected_none (prompt : str) (n : nat) : all_rejected prompt n 0.
Proof. intros i Hi. lia. Qed.

Lemma retry_loop_outcome (prompt : str) (k n : nat) :
  loop_outcome prompt k n (retry_loop rt k prompt n).
Proof.
  revert n; induction k as [|k IH]; intros n.
  - simpl. split; [reflexivity|]. split; [lia|]. apply all_rejected_none.
  - rewrite retry_loop_cases.
    destruct (generate_content rt prompt n) as [[cls msg]|raw] eqn:Hgen.
    + simpl. exists 0%nat. split; [lia|]. split; [lia|].
      split; [apply all_rejected_none|]. left. now rewrite Nat.add_0_r.
    + destruct (json_loads rt (clean_json (strip raw)))
        as [data|dmsg|e emsg] eqn:Hl.
      * assert (Hnm : forall d, data = d ->
                  (forall members, d <> JObject members) ->
                  loop_outcome prompt (S k) n
                    (Raise (PyError TypeError
                              (lit "argument after ** must be a mapping")),
                     S n)).
        { intros d -> Hd. simpl. exists 0%nat. split; [lia|]. split; [lia|].
          split; [apply all_rejected_none|]. right. left.
          split; [reflexivity|].
          exists raw. rewrite Nat.add_0_r. split; [exact Hgen|].
          exists d. split; [exact Hl | exact Hd]. }
        destruct data;
          try (apply (Hnm _ eq_refl); intros members; discriminate).
        destruct (validate_model rt members) as [r|] eqn:Hv.
        -- simpl. exists 0%nat. split; [lia|]. split; [lia|].
           split; [apply all_rejected_none|]. exists raw.
           rewrite Nat.add_0_r. split; [exact Hgen|].
           exists members. split; assumption.
        -- apply (loop_outcome_next prompt k n raw _ Hgen); [|apply IH].
           right. exists members. split; assumption.
      * apply (loop_outcome_next prompt k n raw _ Hgen); [|apply IH].
        left. exists dmsg. exact Hl.
      * simpl. exists 0%nat. split; [lia|]. split; [lia|].
        split; [apply all_rejected_none|]. right. right.
        exists raw, e. rewrite Nat.add_0_r. repeat split; assumption.
Qed.

(** When the answers before attempt [j] are rejected and the model call
    of attempt [j] raises, the loop ends with that exception. *)
Lemma retry_loop_call_raises (prompt : str) (k j n : nat) cls msg :
  (j < k)%nat ->
  all_rejected prompt n j ->
  generate_content rt prompt (n + j) = inl (cls, msg) ->
  retry_loop rt k prompt n = (Raise (PyError cls msg), (n + S j)%nat).
Proof.
  revert k n; induction j as [|j IH]; intros k n Hjk Hbefore Hgen.
  - destruct k as [|k]; [lia|]. rewrite Nat.add_0_r in Hgen.
    rewrite retry_loop_cases, Hgen. f_equal. lia.
  - destruct k as [|k]; [lia|].
    destruct (Hbefore 0%nat ltac:(lia)) as (raw0 & Hgen0 & Hrej0).
    rewrite Nat.add_0_r in Hgen0.
    rewrite (retry_loop_rejected rt k n prompt raw0 Hgen0 Hrej0).
    rewrite (IH k (S n)); [f_equal; lia | lia | |].
    + apply all_rejected_unshift. exact Hbefore.
    + now replace (S n + j)%nat with (n + S j)%nat by lia.
Qed.

End LoopCases.

(** The model answers with prose that is not JSON, every time. *)
Definition rt_prose : Runtime :=
  scripted [lit "Sorry, I cannot."; lit "Sorry, I cannot.";
            lit "Sorry, I cannot."] [] [] no_dumps [].

(** The model answers with prose twice, then with a valid document. *)
Definition rt_prose_then_valid : Runtime :=
  scripted [lit "Sorry, I cannot."; lit "Sorry, I cannot."; sample_text]
           [(sample_text, JObject sample_members)] [] no_dumps [].

(** The response [sample_members] validates to. *)
Definition sample_response : ResumeScoreResponse :=
  {| summary := lit "Backend developer.";
     skills_score := binary_normalize 53 1024 7 0 false;
     experience_score := binary_normalize 53 1024 6 0 false;
     overall_score := binary_normalize 53 1024 7 0 false;
     feedback := lit "Add metrics.";
     missing_aspects := [] |}.

Lemma process_resume_exhausted_witness :
  process_resume rt_prose sample_resume 0%nat = (Raise model_failed, 3%nat) /\
  status_of (fst (process_resume rt_prose sample_resume 0%nat)) = 500.
Proof.
  apply (process_resume_exhausted rt_prose sample_resume 0%nat).
  intros i Hi. exists (lit "Sorry, I cannot."). split.
  - destruct i as [|[|[|i]]]; try reflexivity. lia.
  - left. eexists. reflexivity.
Defined.

Lemma process_resume_first_accepted_witness :
  process_resume rt_prose_then_valid sample_resume 0%nat
    = (Ret sample_response, 3%nat).
Proof.
  apply (process_resume_first_accepted rt_prose_then_valid sample_resume
           2%nat 0%nat sample_response).
  - lia.
  - intros i Hi. exists (lit "Sorry, I cannot."). split.
    + destruct i as [|[|i]]; try reflexivity. lia.
    + left. eexists. reflexivity.
  - exists sample_text. split; [reflexivity|].
    exists sample_members. split; reflexivity.
Defined.

(** [process_resume] makes at least one and at most three model calls,
    whatever the model answers and however the request ends. *)
Theorem process_resume_calls (rt : Runtime) (v : json) (n : nat) :
  (n < snd (process_resume rt v n) <= n + 3)%nat.
Proof.
  unfold process_resume.
  destruct (retry_loop_calls rt (make_prompt rt v) 3 n) as [[_ Hle] Hlt].
  split; [apply Hlt; discriminate | exact Hle].
Qed.

(** An exception of the model client is not retried: when the answers
    before attempt [j] are rejected and the call of attempt [j] raises,
    the request ends with that exception after [j + 1] calls. *)
Theorem process_resume_call_raises (rt : Runtime) (v : json) (j n : nat)
    (cls : exn_class) (msg : str) :
  (j < 3)%nat ->
  all_rejected rt (make_prompt rt v) n j ->
  generate_content rt (make_prompt rt v) (n + j) = inl (cls, msg) ->
  process_resume rt v n = (Raise (PyError cls msg), (n + S j)%nat) /\
  status_of (fst (process_resume rt v n)) = 500.
Proof.
  intros Hj Hall Hgen. unfold process_resume.
  rewrite (retry_loop_call_raises rt _ 3 j n cls msg Hj Hall Hgen).
  split; reflexivity.
Qed.

(** A runtime whose model client answers like [rt] before call [k] and
    raises at call [k] and after. *)
Definition failing_from (rt : Runtime) (k : nat) (msg : str) : Runtime :=
  {| json_loads := json_loads rt;
     json_load := json_load rt;
     json_dumps := json_dumps rt;
     py_str := py_str rt;
     lax_str := lax_str rt;
     lax_float := lax_float rt;
     generate_content := fun prompt n =>
       if (n <? k)%nat then generate_content rt prompt n
       else inl (OtherError, msg);
     PdfReader := PdfReader rt |}.

Lemma process_resume_call_raises_witness :
  process_resume (failing_from rt_prose 1 (lit "quota exceeded"))
    sample_resume 0%nat
  = (Raise (PyError OtherError (lit "quota exceeded")), 2%nat) /\
  status_of (fst (process_resume
                    (failing_from rt_prose 1 (lit "quota exceeded"))
                    sample_resume 0%nat)) = 500.
Proof.
  apply (process_resume_call_raises
           (failing_from rt_prose 1 (lit "quota exceeded"))
           sample_resume 1%nat 0%nat OtherError (lit "quota exceeded")).
  - lia.
  - intros i Hi. exists (lit "Sorry, I cannot."). split.
    + destruct i as [|i]; [reflexivity | lia].
    + left. eexists. reflexivity.
  - reflexivity.
Defined.

(** A response [process_resume] returns is always the validated answer
    of the last model call made, and the answers before it were
    rejected. *)
Theorem process_resume_returns_validated (rt : Runtime) (v : json)
    (n m : nat) (r : ResumeScoreResponse) :
  process_resume rt v n = (Ret r, m) ->
  exists j raw,
    (j < 3)%nat /\ m = (n + S j)%nat /\
    all_rejected rt (make_prompt rt v) n j /\
    generate_content rt (make_prompt rt v) (n + j) = inr raw /\
    accepted rt (clean_json (strip raw)) r.
Proof.
  intros Hrun.
  pose proof (retry_loop_outcome rt (make_prompt rt v) 3 n) as Hout.
  unfold process_resume in Hrun. rewrite Hrun in Hout. simpl in Hout.
  destruct Hout as (j & Hj & Hm & Hall & raw & Hgen & Hacc).
  exists j, raw. repeat split; assumption.
Qed.

Lemma process_resume_returns_validated_witness :
  exists j raw,
    (j < 3)%nat /\ 3%nat = (0 + S j)%nat /\
    all_rejected rt_prose_then_valid
      (make_prompt rt_prose_then_valid sample_resume) 0 j /\
    generate_content rt_prose_then_valid
      (make_prompt rt_prose_then_valid sample_resume) (0 + j) = inr raw /\
    accepted rt_prose_then_valid (clean_json (strip raw)) sample_response.
Proof.
  apply (process_resume_returns_validated rt_prose_then_valid sample_resume
           0%nat 3%nat sample_response).
  reflexivity.
Defined.

(** The only [HTTPException] [process_resume] raises is the 500 "Model
    failed to return valid JSON after 3 attempts", and it raises it
    only after exactly three model calls whose answers were all
    rejected. *)
Theorem process_resume_http_error (rt : Runtime) (v : json) (n m : nat)
    (code : Z) (detail : str) :
  process_resume rt v n = (Raise (HTTPException code detail), m) ->
  code = 500 /\
  detail = lit "Model failed to return valid JSON after 3 attempts" /\
  m = (n + 3)%nat /\
  all_rejected rt (make_prompt rt v) n 3.
Proof.
  intros Hrun.
  pose proof (retry_loop_outcome rt (make_prompt rt v) 3 n) as Hout.
  unfold process_resume in Hrun. rewrite Hrun in Hout. simpl in Hout.
  destruct Hout as (He & Hm & Hall). unfold model_failed in He.
  injection He as -> ->. repeat split; assumption.
Qed.

Lemma process_resume_http_error_witness :
  500 = 500 /\
  lit "Model failed to return valid JSON after 3 attempts"
    = lit "Model failed to return valid JSON after 3 attempts" /\
  3%nat = (0 + 3)%nat /\
  all_rejected rt_prose (make_prompt rt_prose sample_resume) 0 3.
Proof.
  apply (process_resume_http_error rt_prose sample_resume 0%nat 3%nat 500
           (lit "Model failed to return valid JSON after 3 attempts")).
  reflexivity.
Defined.

(** ** Validation, further *)

(** The names of the fields of [ResumeScoreResponse]. *)
Definition field_names : list string :=
  ["summary"; "skills_score"; "experience_score"; "overall_score";
   "feedback"; "missing_aspects"]%string.

(** What [validate_and_parse_json] returns is the very value
    [json.loads] built, it is an object whose six fields validate, it
    is truthy, and building the response from it again succeeds. *)
Theorem validate_and_parse_json_returns_valid (rt : Runtime) (text : str)
    (data : json) :
  validate_and_parse_json rt text = Ret (Some data) ->
  json_loads rt text = Parsed data /\
  truthy data = true /\
  exists members r,
    data = JObject members /\
    validate_model rt members = Some r /\
    new_ResumeScoreResponse rt data = Ret r.
Proof.
  unfold validate_and_parse_json, parse_and_validate.
  destruct (json_loads rt text) as [d|msg|e msg];
    [|discriminate|destruct e; discriminate].
  destruct d; simpl; try discriminate.
  destruct (validate_model rt members) as [r|] eqn:Hv; [|discriminate].
  intros H. injection H as <-. split; [reflexivity|].
  split; [exact (validate_model_nonempty rt members r Hv)|].
  exists members, r. simpl. rewrite Hv. repeat split.
Qed.

Lemma validate_and_parse_json_returns_valid_witness :
  json_loads (rt_answer sample_text sample_members) sample_text
    = Parsed (JObject sample_members) /\
  truthy (JObject sample_members) = true /\
  exists members r,
    JObject sample_members = JObject members /\
    validate_model (rt_answer sample_text sample_members) members = Some r /\
    new_ResumeScoreResponse (rt_answer sample_text sample_members)
      (JObject sample_members) = Ret r.
Proof.
  apply (validate_and_parse_json_returns_valid
           (rt_answer sample_text sample_members) sample_text
           (JObject sample_members)).
  reflexivity.
Defined.

Lemma validate_model_missing (rt : Runtime) (members : list (str * json))
    (name : string) :
  In name field_names ->
  dict_lookup members (lit name) = None ->
  validate_model rt members = None.
Proof.
  intros Hin Hk. unfold validate_model.
  assert (Hf : forall A (val : json -> option A),
             field members name val = None)
    by (intros A val; unfold field; now rewrite Hk).
  simpl in Hin.
  destruct Hin as [<- | [<- | [<- | [<- | [<- | [<- | []]]]]]];
    rewrite Hf;
    repeat match goal with
           | |- match ?x with _ => _ end = None => destruct x
           end; reflexivity.
Qed.

(** An answer that is a JSON object without one of the six fields (the
    empty object among them) is discarded as [None], not an error. *)
Theorem missing_field_discarded (rt : Runtime) (text : str)
    (members : list (str * json)) (name : string) :
  In name field_names ->
  json_loads rt text = Parsed (JObject members) ->
  dict_lookup members (lit name) = None ->
  validate_and_parse_json rt text = Ret None /\
  rejected rt text.
Proof.
  intros Hin Hl Hk.
  pose proof (validate_model_missing rt members name Hin Hk) as Hv.
  split.
  - unfold validate_and_parse_json, parse_and_validate. rewrite Hl. simpl.
    now rewrite Hv.
  - right. exists members. split; assumption.
Qed.

(** The model answers with the empty object. *)
Definition rt_empty_object : Runtime := rt_answer (lit "{}") [].

Lemma missing_field_discarded_witness :
  validate_and_parse_json rt_empty_object (lit "{}") = Ret None /\
  rejected rt_empty_object (lit "{}").
Proof.
  apply (missing_field_discarded rt_empty_object (lit "{}") []
           "feedback"%string).
  - do 4 right. left. reflexivity.
  - reflexivity.
  - reflexivity.
Defined.

Lemma str_eqb_neq (a b : str) : a <> b -> str_eqb a b = false.
Proof.
  intros Hne. destruct (str_eqb a b) eqn:E; [|reflexivity].
  apply str_eqb_eq in E. now contradiction Hne.
Qed.

Lemma dict_lookup_other (l1 l2 : list (str * json)) (k name : str)
    (v : json) :
  k <> name ->
  dict_lookup (l1 ++ (k, v) :: l2) name = dict_lookup (l1 ++ l2) name.
Proof.
  intros Hne. induction l1 as [|[k' v'] l1 IH]; simpl.
  - now rewrite (str_eqb_neq k name Hne).
  - now rewrite IH.
Qed.

(** A key that is not the name of a field does not change validation:
    the document validates, or fails, as it does without the key. *)
Theorem unknown_key_ignored (rt : Runtime) (l1 l2 : list (str * json))
    (k : str) (v : json) :
  (forall name, In name field_names -> k <> lit name) ->
  validate_model rt (l1 ++ (k, v) :: l2) = validate_model rt (l1 ++ l2).
Proof.
  intros Hk. unfold validate_model, field.
  rewrite !(dict_lookup_other l1 l2 k _ v) by (apply Hk; simpl; auto 10).
  reflexivity.
Qed.

Lemma unknown_key_ignored_witness :
  validate_model (rt_answer sample_text sample_members)
    ((lit "confidence", JString (lit "high")) :: sample_members)
  = validate_model (rt_answer sample_text sample_members) sample_members.
Proof.
  apply (unknown_key_ignored (rt_answer sample_text sample_members)
           [] sample_members (lit "confidence") (JString (lit "high"))).
  intros name Hin. simpl in Hin.
  destruct Hin as [<- | [<- | [<- | [<- | [<- | [<- | []]]]]]];
    discriminate.
Defined.

(** ** [clean_json] and [strip], further *)

(** The document [{"a": 1}]. *)
Definition small_document_body : str := quoted "a" ++ lit ": 1".

Lemma clean_json_fenced_document_witness :
  clean_json (lit "```json" ++ nl
              ++ (123%N :: small_document_body ++ [125%N])
              ++ nl ++ lit "```")
  = 123%N :: small_document_body ++ [125%N].
Proof.
  apply (clean_json_fenced_document 123%N 125%N small_document_body);
    reflexivity.
Defined.

(** A document fenced without a language tag, free of the four letters
    json and of white space at its ends, is cleaned to the document. *)
Lemma clean_json_plain_fence (c d : char) (mid : str) :
  isspace c = false -> isspace d = false ->
  occurs tag (c :: mid ++ [d]) = false ->
  clean_json (lit "```" ++ nl ++ (c :: mid ++ [d]) ++ nl ++ lit "```")
    = c :: mid ++ [d].
Proof.
  intros Hc Hd Hocc.
  set (p := c :: mid ++ [d]) in *.
  assert (Hfence :
    strip_chars (lit "`") (lit "```" ++ nl ++ p ++ nl ++ lit "```")
      = nl ++ p ++ nl).
  { unfold strip_chars, strip_by, rstrip_by.
    change (lstrip_by (char_in (lit "`"))
              (lit "```" ++ nl ++ p ++ nl ++ lit "```"))
      with (nl ++ p ++ nl ++ lit "```").
    rewrite !rev_app_distr, <- !app_assoc.
    change (rev (lit "```")) with (lit "```").
    change (rev nl) with nl.
    change (lstrip_by (char_in (lit "`"))
              (lit "```" ++ nl ++ rev p ++ nl))
      with (nl ++ rev p ++ nl).
    rewrite !rev_app_distr, !rev_involutive, <- !app_assoc.
    reflexivity. }
  assert (Hrep : replace (lit "json") [] (nl ++ p ++ nl) = nl ++ p ++ nl).
  { change (replace (lit "json") [] (nl ++ p ++ nl))
      with (replace_from tag [] O (nl ++ p ++ nl)).
    apply replace_from_absent.
    change (nl ++ p ++ nl) with (10%N :: (p ++ nl)).
    cbn [occurs]. rewrite occurs_tag_newline, Hocc. reflexivity. }
  unfold clean_json.
  change (startswith (lit "```" ++ nl ++ p ++ nl ++ lit "```")
            (lit "```")) with true.
  cbv iota. rewrite Hfence, Hrep.
  unfold strip, strip_by, rstrip_by.
  change (lstrip_by isspace (nl ++ p ++ nl))
    with (lstrip_by isspace (c :: (mid ++ [d]) ++ nl)).
  rewrite (lstrip_by_stop isspace c _ Hc).
  change (c :: (mid ++ [d]) ++ nl) with (p ++ nl).
  rewrite rev_app_distr.
  change (rev nl ++ rev p) with (10%N :: rev p).
  unfold p at 1.
  change (c :: mid ++ [d]) with ((c :: mid) ++ [d]).
  rewrite rev_app_distr.
  change (lstrip_by isspace (10%N :: rev [d] ++ rev (c :: mid)))
    with (lstrip_by isspace (d :: rev (c :: mid))).
  rewrite (lstrip_by_stop isspace d _ Hd).
  change (d :: rev (c :: mid)) with (rev [d] ++ rev (c :: mid)).
  rewrite <- rev_app_distr, rev_involutive. reflexivity.
Qed.

Lemma clean_json_plain_fence_witness :
  clean_json (lit "```" ++ nl
              ++ (123%N :: small_document_body ++ [125%N])
              ++ nl ++ lit "```")
  = 123%N :: small_document_body ++ [125%N].
Proof.
  apply (clean_json_plain_fence 123%N 125%N small_document_body);
    reflexivity.
Defined.

Section Strip.

Variable p : char -> bool.

(** What [lstrip_by] leaves is empty or starts with a character that
    is kept. *)
Lemma lstrip_by_head (s : str) :
  lstrip_by p s = [] \/
  exists c t, lstrip_by p s = c :: t /\ p c = false.
Proof.
  induction s as [|c s IH]; simpl; [now left|].
  destruct (p c) eqn:E; [exact IH|]. right. now exists c, s.
Qed.

Lemma lstrip_by_snoc (s : str) (c : char) :
  p c = false -> lstrip_by p (s ++ [c]) = lstrip_by p s ++ [c].
Proof.
  intros Hc. induction s as [|x s IH]; simpl.
  - now rewrite Hc.
  - destruct (p x); [exact IH | reflexivity].
Qed.

Lemma rstrip_by_cons (c : char) (s : str) :
  p c = false -> rstrip_by p (c :: s) = c :: rstrip_by p s.
Proof.
  intros Hc. unfold rstrip_by. simpl.
  rewrite (lstrip_by_snoc _ c Hc), rev_app_distr. reflexivity.
Qed.

Lemma rstrip_by_idempotent (s : str) :
  rstrip_by p (rstrip_by p s) = rstrip_by p s.
Proof.
  unfold rstrip_by. rewrite rev_involutive.
  destruct (lstrip_by_head (rev s)) as [-> | (c & t & -> & Hc)];
    [reflexivity|].
  now rewrite (lstrip_by_stop p c t Hc).
Qed.

Lemma strip_by_idempotent (s : str) :
  strip_by p (strip_by p s) = strip_by p s.
Proof.
  unfold strip_by.
  destruct (lstrip_by_head s) as [-> | (c & t & -> & Hc)]; [reflexivity|].
  rewrite (rstrip_by_cons c t Hc), (lstrip_by_stop p c _ Hc).
  rewrite (rstrip_by_cons c _ Hc), rstrip_by_idempotent. reflexivity.
Qed.

Lemma lstrip_by_all (s : str) :
  forallb p s = true -> lstrip_by p s = [].
Proof.
  induction s as [|c s IH]; simpl; [reflexivity|].
  intros H. apply andb_true_iff in H as [-> Hs]. exact (IH Hs).
Qed.

End Strip.

Lemma clean_json_strip_fixed (raw : str) :
  strip (clean_json (strip raw)) = clean_json (strip raw).
Proof.
  unfold clean_json.
  destruct (startswith (strip raw) (lit "```")); unfold strip;
    apply strip_by_idempotent.
Qed.

(** At every attempt of the loop, the text handed to
    [validate_and_parse_json] is [clean_json] of what [call_gemini]
    returned, and that text has no white space at its ends, fenced or
    not. *)
Theorem validated_text_stripped (rt : Runtime) (prompt text : str)
    (k n m : nat) :
  call_gemini rt prompt n = (Ret text, m) ->
  strip (clean_json text) = clean_json text /\
  retry_loop rt (S k) prompt n =
    match validate_and_parse_json rt (clean_json text) with
    | Ret (Some data) =>
        if truthy data then (new_ResumeScoreResponse rt data, m)
        else retry_loop rt k prompt m
    | Ret None => retry_loop rt k prompt m
    | Raise e => (Raise e, m)
    end.
Proof.
  unfold call_gemini.
  destruct (generate_content rt prompt n) as [[cls msg]|raw] eqn:Hgen;
    [discriminate|].
  intros H. injection H as <- <-. split.
  - apply clean_json_strip_fixed.
  - apply (retry_loop_step rt k n prompt raw Hgen).
Qed.

(** The model pads a valid document with white space. *)
Definition rt_padded : Runtime :=
  scripted [lit "  " ++ sample_text ++ nl]
           [(sample_text, JObject sample_members)] [] no_dumps [].

Lemma validated_text_stripped_witness :
  strip (clean_json sample_text) = clean_json sample_text /\
  retry_loop rt_padded 3%nat (make_prompt rt_padded sample_resume) 0%nat =
    match validate_and_parse_json rt_padded (clean_json sample_text) with
    | Ret (Some data) =>
        if truthy data then (new_ResumeScoreResponse rt_padded data, 1%nat)
        else retry_loop rt_padded 2%nat (make_prompt rt_padded sample_resume) 1%nat
    | Ret None =>
        retry_loop rt_padded 2%nat (make_prompt rt_padded sample_resume) 1%nat
    | Raise e => (Raise e, 1%nat)
    end.
Proof.
  apply (validated_text_stripped rt_padded
           (make_prompt rt_padded sample_resume) sample_text 2%nat 0%nat 1%nat).
  reflexivity.
Defined.

(** ** Uploads, further *)

Section UploadCases.

Variable rt : Runtime.

Lemma process_resume_raises_500 (v : json) (n m : nat) (code : Z)
    (detail : str) :
  process_resume rt v n = (Raise (HTTPException code detail), m) ->
  code = 500.
Proof.
  intros Hrun.
  pose proof (retry_loop_outcome rt (make_prompt rt v) 3 n) as Hout.
  unfold process_resume in Hrun. rewrite Hrun in Hout. simpl in Hout.
  destruct Hout as (He & _). unfold model_failed in He.
  now injection He as -> _.
Qed.

Lemma process_resume_status (v : json) (n : nat) :
  status_of (fst (process_resume rt v n)) = 200 \/
  status_of (fst (process_resume rt v n)) = 500.
Proof.
  destruct (process_resume rt v n) as [[r|[code detail|cls msg]] m] eqn:E;
    simpl; auto.
  right. exact (process_resume_raises_500 v n m code detail E).
Qed.

Lemma read_pages_failure (ts : list (option str)) (err : failure)
    (rest : list page) (text : str) :
  read_pages (map inr ts ++ inl err :: rest) text = inl err.
Proof.
  revert text; induction ts as [|t ts IH]; intros text; simpl;
    [reflexivity | apply IH].
Qed.

(** [extract_text_from_pdf] raises nothing but the 400. *)
Lemma extract_text_from_pdf_raises (f : UploadFile) (e : exn) :
  extract_text_from_pdf rt f = Raise e ->
  exists msg, e = HTTPException 400 (lit "Error reading PDF: " ++ msg).
Proof.
  unfold extract_text_from_pdf.
  destruct (PdfReader rt (file f)) as [[cls msg]|pages].
  - intros H. injection H as <-. now exists msg.
  - destruct (read_pages pages []) as [[cls msg]|text]; [|discriminate].
    intros H. injection H as <-. now exists msg.
Qed.

Lemma forallb_concat (q : char -> bool) (l : list str) :
  (forall s, In s l -> forallb q s = true) ->
  forallb q (List.concat l) = true.
Proof.
  induction l as [|s l IH]; intros H; simpl; [reflexivity|].
  rewrite forallb_app, (H s (or_introl eq_refl)), IH; [reflexivity|].
  intros s' Hs'. apply H. now right.
Qed.

Lemma strip_blank (s : str) : forallb isspace s = true -> strip s = [].
Proof.
  intros H. unfold strip, strip_by. now rewrite (lstrip_by_all isspace s H).
Qed.

End UploadCases.

(** A JSON upload whose [resume_text] is a non-empty string is scored
    exactly as the same text posted to [/score]. *)
Theorem upload_json_same_as_score (rt : Runtime) (f : UploadFile) (n : nat)
    (members : list (str * json)) (c : char) (s : str) :
  content_type f = Some json_type ->
  json_load rt (file f) = Some (JObject members) ->
  dict_lookup members (lit "resume_text") = Some (JString (c :: s)) ->
  upload_resume rt f n = score_resume rt {| resume_text := c :: s |} n.
Proof.
  intros Hct Hl Hk. rewrite (upload_resume_json rt f n Hct).
  rewrite (read_json_upload_object rt f members Hl).
  unfold dict_get. rewrite Hk. reflexivity.
Qed.

Lemma upload_json_same_as_score_witness :
  upload_resume rt_foo_bar (upload json_type foo_text) 0%nat
  = score_resume rt_foo_bar {| resume_text := lit "foo" |} 0%nat.
Proof.
  apply (upload_json_same_as_score rt_foo_bar (upload json_type foo_text)
           0%nat foo_members 102%N (lit "oo"));
    reflexivity.
Defined.

(** A PDF that does not open, or one page of which fails to extract,
    fails the upload with the 400 "Error reading PDF: ..." carrying the
    library's message; the text of the pages read before is dropped and
    the model is not called. *)
Theorem upload_pdf_unreadable (rt : Runtime) (f : UploadFile) (n : nat)
    (cls : exn_class) (msg : str) :
  content_type f = Some pdf_type ->
  PdfReader rt (file f) = inl (cls, msg) \/
  (exists ts rest,
     PdfReader rt (file f) = inr (map inr ts ++ inl (cls, msg) :: rest)) ->
  upload_resume rt f n =
    (Raise (HTTPException 400 (lit "Error reading PDF: " ++ msg)), n).
Proof.
  intros Hct Hfail. rewrite (upload_resume_pdf rt f n Hct).
  unfold extract_text_from_pdf.
  destruct Hfail as [-> | (ts & rest & ->)]; [reflexivity|].
  now rewrite read_pages_failure.
Qed.

(** A PDF whose second page fails to extract. *)
Definition rt_bad_page : Runtime :=
  scripted [] [] [] no_dumps
    [inr (Some (lit "Jane Doe")); inl (OtherError, lit "bad stream");
     inr (Some (lit "Skills"))].

Lemma upload_pdf_unreadable_witness :
  upload_resume rt_bad_page (upload pdf_type (lit "%PDF-1.4")) 0%nat =
    (Raise (HTTPException 400
              (lit "Error reading PDF: " ++ lit "bad stream")), 0%nat).
Proof.
  apply (upload_pdf_unreadable rt_bad_page (upload pdf_type (lit "%PDF-1.4"))
           0%nat OtherError (lit "bad stream")).
  - reflexivity.
  - right. exists [Some (lit "Jane Doe")], [inr (Some (lit "Skills"))].
    reflexivity.
Defined.

(** An upload answered with a 400 was refused before any model call:
    the number of model calls is the one the request started with. *)
Theorem upload_bad_request_no_call (rt : Runtime) (f : UploadFile)
    (n m : nat) (detail : str) :
  upload_resume rt f n = (Raise (HTTPException 400 detail), m) ->
  m = n.
Proof.
  unfold upload_resume.
  destruct (content_type_is f "application/pdf").
  - unfold bind, lift. destruct (extract_text_from_pdf rt f) as [text|e].
    + intros H. now apply process_resume_raises_500 in H.
    + intros H. now injection H.
  - destruct (content_type_is f "application/json").
    + unfold bind, lift.
      destruct (except_Exception (read_json_upload rt f) invalid_json)
        as [v|e].
      * intros H. now apply process_resume_raises_500 in H.
      * intros H. now injection H.
    + unfold raise. intros H. now injection H.
Qed.

Lemma upload_bad_request_no_call_witness : 0%nat = 0%nat.
Proof.
  apply (upload_bad_request_no_call rt_array_upload
           (upload json_type (lit "[1, 2]")) 0%nat 0%nat
           (lit "Invalid JSON file")).
  reflexivity.
Defined.

(** Once a request has reached its handler, the outcome of the handler
    is answered with no other status than these: for [score_resume]
    200 or 500, for [upload_resume] 200, 400 or 500. *)
Theorem endpoint_status_codes (rt : Runtime) (n : nat) :
  (forall request,
     In (status_of (fst (score_resume rt request n))) [200; 500]) /\
  (forall f,
     In (status_of (fst (upload_resume rt f n))) [200; 400; 500]).
Proof.
  split.
  - intros request. unfold score_resume.
    destruct (process_resume_status rt (JString (resume_text request)) n)
      as [-> | ->]; simpl; auto.
  - intros f. unfold upload_resume.
    destruct (content_type_is f "application/pdf").
    + unfold bind, lift.
      destruct (extract_text_from_pdf rt f) as [text|e] eqn:E.
      * destruct (process_resume_status rt (JString text) n) as [-> | ->];
          simpl; auto.
      * destruct (extract_text_from_pdf_raises rt f e E) as (msg & ->).
        simpl. auto.
    + destruct (content_type_is f "application/json").
      * unfold bind, lift.
        destruct (read_json_upload rt f) as [v|e]; simpl.
        -- destruct (process_resume_status rt v n) as [-> | ->];
             simpl; auto.
        -- auto.
      * simpl. auto.
Qed.

(** A PDF without pages, or whose pages hold nothing but white space,
    is not refused: its resume text is the empty string, and the model
    is called with it. *)
Theorem upload_pdf_blank (rt : Runtime) (f : UploadFile) (n : nat)
    (ts : list (option str)) :
  content_type f = Some pdf_type ->
  PdfReader rt (file f) = inr (map inr ts) ->
  (forall t, In t ts -> forallb isspace (page_text t) = true) ->
  upload_resume rt f n = process_resume rt (JString []) n /\
  (n < snd (upload_resume rt f n))%nat.
Proof.
  intros Hct Hr Hblank.
  assert (He : extract_text_from_pdf rt f = Ret []).
  { unfold extract_text_from_pdf. rewrite Hr, read_pages_concat. simpl.
    rewrite strip_blank; [reflexivity|].
    apply forallb_concat. intros s Hs. apply in_map_iff in Hs as (t & <- & Ht).
    rewrite text_or_empty_page_text. exact (Hblank t Ht). }
  rewrite (upload_resume_pdf rt f n Hct), He. split; [reflexivity|].
  unfold process_resume.
  apply (retry_loop_calls rt (make_prompt rt (JString [])) 3 n).
  discriminate.
Qed.

(** A PDF of two pages, one without text and one of blanks. *)
Definition rt_blank_pages : Runtime :=
  scripted [lit "Sorry, I cannot."] [] [] no_dumps
    [inr None; inr (Some (lit "  " ++ nl))].

Lemma upload_pdf_blank_witness :
  upload_resume rt_blank_pages (upload pdf_type (lit "%PDF-1.4")) 0%nat
    = process_resume rt_blank_pages (JString []) 0%nat /\
  (0 < snd (upload_resume rt_blank_pages
              (upload pdf_type (lit "%PDF-1.4")) 0%nat))%nat.
Proof.
  apply (upload_pdf_blank rt_blank_pages (upload pdf_type (lit "%PDF-1.4"))
           0%nat [None; Some (lit "  " ++ nl)]).
  - reflexivity.
  - reflexivity.
  - intros t [<- | [<- | []]]; reflexivity.
Defined.

(** ** Answers that end the loop with an uncaught exception *)

Section Uncaught.

Variable rt : Runtime.

(** When the answers before attempt [j] are rejected and attempt [j]
    ends the turn with [out], the loop ends with [out]. *)
Lemma retry_loop_stops (prompt : str) (k j n : nat)
    (out : res ResumeScoreResponse) :
  (j < k)%nat ->
  all_rejected rt prompt n j ->
  (forall k', retry_loop rt (S k') prompt (n + j)%nat
              = (out, S (n + j))) ->
  retry_loop rt k prompt n = (out, (n + S j)%nat).
Proof.
  revert k n; induction j as [|j IH]; intros k n Hjk Hbefore Hlast.
  - destruct k as [|k]; [lia|]. rewrite Nat.add_0_r in Hlast.
    rewrite Hlast. f_equal. lia.
  - destruct k as [|k]; [lia|].
    destruct (Hbefore 0%nat ltac:(lia)) as (raw0 & Hgen0 & Hrej0).
    rewrite Nat.add_0_r in Hgen0.
    rewrite (retry_loop_rejected rt k n prompt raw0 Hgen0 Hrej0).
    rewrite (IH k (S n)); [f_equal; lia | lia | |].
    + apply all_rejected_unshift. exact Hbefore.
    + intros k'. replace (S n + j)%nat with (n + S j)%nat by lia.
      apply Hlast.
Qed.

End Uncaught.

(** An exception of [json.loads] other than [JSONDecodeError] is not
    caught by [validate_and_parse_json] and not retried: when the
    answers before attempt [j] are rejected and [json.loads] raises it
    on the answer of attempt [j], the request ends with that exception
    after [j + 1] model calls. *)
Theorem process_resume_loads_raises (rt : Runtime) (v : json) (j n : nat)
    (raw : str) (e : loads_exn) (msg : str) :
  (j < 3)%nat ->
  all_rejected rt (make_prompt rt v) n j ->
  generate_content rt (make_prompt rt v) (n + j) = inr raw ->
  json_loads rt (clean_json (strip raw)) = LoadsRaises e msg ->
  validate_and_parse_json rt (clean_json (strip raw))
    = Raise (PyError (class_of e) msg) /\
  process_resume rt v n = (Raise (PyError (class_of e) msg), (n + S j)%nat) /\
  status_of (fst (process_resume rt v n)) = 500.
Proof.
  intros Hj Hall Hgen Hl.
  assert (Hp : validate_and_parse_json rt (clean_json (strip raw))
               = Raise (PyError (class_of e) msg)).
  { unfold validate_and_parse_json, parse_and_validate. rewrite Hl.
    destruct e; reflexivity. }
  split; [exact Hp|]. unfold process_resume.
  rewrite (retry_loop_stops rt (make_prompt rt v) 3 j n
             (Raise (PyError (class_of e) msg)) Hj Hall).
  - split; reflexivity.
  - intros k'. rewrite retry_loop_cases, Hgen, Hl. reflexivity.
Qed.

(** A runtime like [rt], but whose [json.loads] raises [e] on [text]. *)
Definition loads_raising (rt : Runtime) (text : str) (e : loads_exn)
    (msg : str) : Runtime :=
  {| json_loads := fun s =>
       if str_eqb s text then LoadsRaises e msg else json_loads rt s;
     json_load := json_load rt;
     json_dumps := json_dumps rt;
     py_str := py_str rt;
     lax_str := lax_str rt;
     lax_float := lax_float rt;
     generate_content := generate_content rt;
     PdfReader := PdfReader rt |}.

(** The model answers with prose, then with brackets nested too deep. *)
Definition rt_too_deep : Runtime :=
  loads_raising
    (scripted [lit "Sorry, I cannot."; lit "[[[[[[[["; sample_text]
              [(sample_text, JObject sample_members)] [] no_dumps [])
    (lit "[[[[[[[[") TooDeep (lit "maximum recursion depth exceeded").

Lemma process_resume_loads_raises_witness :
  validate_and_parse_json rt_too_deep (clean_json (strip (lit "[[[[[[[[")))
    = Raise (PyError RecursionError
               (lit "maximum recursion depth exceeded")) /\
  process_resume rt_too_deep sample_resume 0%nat =
    (Raise (PyError RecursionError (lit "maximum recursion depth exceeded")),
     2%nat) /\
  status_of (fst (process_resume rt_too_deep sample_resume 0%nat)) = 500.
Proof.
  apply (process_resume_loads_raises rt_too_deep sample_resume 1%nat 0%nat
           (lit "[[[[[[[[") TooDeep (lit "maximum recursion depth exceeded")).
  - lia.
  - intros i Hi. exists (lit "Sorry, I cannot."). split.
    + destruct i as [|i]; [reflexivity | lia].
    + left. eexists. reflexivity.
  - reflexivity.
  - reflexivity.
Defined.

(** An answer that is JSON but not an object is not discarded: when the
    answers before attempt [j] are rejected and the answer of attempt
    [j] parses to a value that is not a [dict], the request ends with
    an uncaught [TypeError] after [j + 1] model calls, and no later
    attempt is made. *)
Theorem process_resume_not_a_mapping (rt : Runtime) (v : json) (j n : nat)
    (raw : str) :
  (j < 3)%nat ->
  all_rejected rt (make_prompt rt v) n j ->
  generate_content rt (make_prompt rt v) (n + j) = inr raw ->
  not_a_mapping rt (clean_json (strip raw)) ->
  process_resume rt v n =
    (Raise (PyError TypeError (lit "argument after ** must be a mapping")),
     (n + S j)%nat) /\
  status_of (fst (process_resume rt v n)) = 500.
Proof.
  intros Hj Hall Hgen (data & Hl & Hd). unfold process_resume.
  rewrite (retry_loop_stops rt (make_prompt rt v) 3 j n
             (Raise (PyError TypeError
                       (lit "argument after ** must be a mapping")))
             Hj Hall).
  - split; reflexivity.
  - intros k'. rewrite retry_loop_cases, Hgen, Hl.
    destruct data; try reflexivity. now contradiction (Hd members).
Qed.

(** The model answers with prose, then with the document in an array. *)
Definition rt_wrapped : Runtime :=
  scripted [lit "Sorry, I cannot."; lit "[" ++ sample_text ++ lit "]";
            sample_text]
           [(lit "[" ++ sample_text ++ lit "]",
             JArray [JObject sample_members]);
            (sample_text, JObject sample_members)] [] no_dumps [].

Lemma process_resume_not_a_mapping_witness :
  process_resume rt_wrapped sample_resume 0%nat =
    (Raise (PyError TypeError (lit "argument after ** must be a mapping")),
     2%nat) /\
  status_of (fst (process_resume rt_wrapped sample_resume 0%nat)) = 500.
Proof.
  apply (process_resume_not_a_mapping rt_wrapped sample_resume 1%nat 0%nat
           (lit "[" ++ sample_text ++ lit "]")).
  - lia.
  - intros i Hi. exists (lit "Sorry, I cannot."). split.
    + destruct i as [|i]; [reflexivity | lia].
    + left. eexists. reflexivity.
  - reflexivity.
  - exists (JArray [JObject sample_members]). split; [reflexivity|].
    intros members. discriminate.
Defined.
